(** * zod-i18n: the error map that turns validation issues into translation
      lookups, and the two error-message helpers.

    The development embeds three source files:
    - [packages/core/src/index.ts]  (module [Core]): the error map that falls
      back to [issue.message];
    - the error map that falls back to zod's English locale and classifies
      the received value (module [Rich]);
    - the test helpers [getErrorMessage] and [getErrorMessageFromZodError]
      (module [Helpers]).

    JavaScript values, objects and the few runtime operations the code relies
    on are modelled in module [Js]. *)

From Stdlib Require Import ZArith List Bool Lia.
From Stdlib Require Import Strings.String Strings.Ascii.
From Stdlib Require Import Numbers.DecimalString.
From Stdlib Require Import Floats.SpecFloat.
Import ListNotations.

Open Scope string_scope.

Set Warnings "-register-all".

(* ------------------------------------------------------------------------- *)
(** ** JavaScript values *)
(* ------------------------------------------------------------------------- *)

Module Js.

(** A JavaScript number is an IEEE 754 binary64 value. *)
Definition number : Type := spec_float.

(** The values an issue can carry.  Symbols and functions are left out: the
    code never builds one, and an issue that reached the error map through a
    schema holds none in the fields read here.

    An object keeps its own enumerable properties in insertion order
    ([own]), the enumerable properties it inherits through its prototype
    chain ([inh]) and, when its prototype is not [Object.prototype], the name
    of its constructor ([ctor]).  A [Date] is its time value. *)
Inductive JsVal : Type :=
| VUndefined
| VNull
| VBool (b : bool)
| VNum (n : number)
| VStr (s : string)
| VBigInt (z : Z)
| VDate (tv : number)
| VArr (elems : list JsVal)
| VObj (ctor : option string) (own : list (string * JsVal))
       (inh : list (string * JsVal)).

(** Own enumerable properties of an object literal, in insertion order. *)
Definition Obj : Type := list (string * JsVal).

(** The object literal [{}]. *)
Definition empty_obj : JsVal := VObj None [] [].

(** [typeof v]. *)
Definition typeof (v : JsVal) : string :=
  match v with
  | VUndefined => "undefined"
  | VNull => "object"
  | VBool _ => "boolean"
  | VNum _ => "number"
  | VStr _ => "string"
  | VBigInt _ => "bigint"
  | VDate _ | VArr _ | VObj _ _ _ => "object"
  end.

(** *** Numbers *)

Definition Infinity : number := S754_infinity false.

Definition Number_isNaN (n : number) : bool :=
  match n with S754_nan => true | _ => false end.

(** [Number.isInteger]: finite, and no bit of the mantissa lies below the
    binary point. *)
Definition Number_isInteger (n : number) : bool :=
  match n with
  | S754_zero _ => true
  | S754_finite _ m e =>
      if (0 <=? e)%Z then true
      else (Z.pos m mod 2 ^ (- e) =? 0)%Z
  | _ => false
  end.

(** The integer part of a finite number (rounding towards zero). *)
Definition truncate (n : number) : Z :=
  match n with
  | S754_finite s m e =>
      let a := if (0 <=? e)%Z then (Z.pos m * 2 ^ e)%Z
               else (Z.pos m / 2 ^ (- e))%Z in
      if s then (- a)%Z else a
  | _ => 0%Z
  end.

(** The binary64 number nearest to an integer: [Number(z)] for a bigint. *)
Definition number_of_Z (z : Z) : number :=
  binary_normalize 53 1024 z 0 false.

(** [TimeClip] of the language specification: the time value a [Date] built
    from a number holds. *)
Definition TimeClip (n : number) : number :=
  match n with
  | S754_zero _ => S754_zero false
  | S754_finite _ _ _ =>
      let z := truncate n in
      if (8640000000000000 <? Z.abs z)%Z then S754_nan
      else number_of_Z z
  | _ => S754_nan
  end.

(** [new Date(n)] for a number [n]. *)
Definition new_Date (n : number) : JsVal := VDate (TimeClip n).

(** *** Strings *)

(** [z.toString()] for a bigint, and the decimal form of an array index. *)
Definition bigint_toString (z : Z) : string :=
  NilZero.string_of_int (Z.to_int z).

(** [Array.prototype.join] over strings already converted. *)
Definition join (sep : string) (parts : list string) : string :=
  String.concat sep parts.

(** JavaScript truthiness of a string (for [filter(Boolean)]). *)
Definition nonempty (s : string) : bool :=
  match s with EmptyString => false | _ => true end.

(** *** Objects *)

(** Property lookup in a list of properties. *)
Fixpoint get (k : string) (o : Obj) : option JsVal :=
  match o with
  | [] => None
  | (k', v) :: rest => if String.eqb k k' then Some v else get k rest
  end.

(** Defining a property of an object literal: a property that already exists
    keeps its place and takes the new value, a new one is added last. *)
Fixpoint set (k : string) (v : JsVal) (o : Obj) : Obj :=
  match o with
  | [] => [(k, v)]
  | (k', v') :: rest =>
      if String.eqb k k' then (k', v) :: rest else (k', v') :: set k v rest
  end.

(** The spread [{ ...o, ...src }]: every property of [src], in order, is
    defined on [o]. *)
Definition spread (src : Obj) (o : Obj) : Obj :=
  fold_left (fun acc kv => set (fst kv) (snd kv) acc) src o.

(** Numbering of array elements by index. *)
Fixpoint indexed (i : nat) (l : list JsVal) : Obj :=
  match l with
  | [] => []
  | v :: rest => (bigint_toString (Z.of_nat i), v) :: indexed (S i) rest
  end.

(** The own enumerable properties a spread copies out of a value. *)
Definition own_enumerable (v : JsVal) : Obj :=
  match v with
  | VObj _ own _ => own
  | VArr l => indexed 0 l
  | _ => []
  end.

(** [k in v] for an object [v]: own or inherited. *)
Definition has_property (k : string) (v : JsVal) : bool :=
  match v with
  | VObj _ own inh =>
      match get k own, get k inh with
      | None, None => false
      | _, _ => true
      end
  | VArr l => match get k (indexed 0 l) with Some _ => true | None => false end
  | _ => false
  end.

(** [v.k] (or [v[k]]) for an object [v]: the own property first, then the
    inherited one, else [undefined]. *)
Definition get_property (k : string) (v : JsVal) : JsVal :=
  match v with
  | VObj _ own inh =>
      match get k own with
      | Some x => x
      | None => match get k inh with Some x => x | None => VUndefined end
      end
  | VArr l => match get k (indexed 0 l) with Some x => x | None => VUndefined end
  | _ => VUndefined
  end.

(** [v === undefined], [v === null] and [v === Infinity]. *)
Definition is_undefined (v : JsVal) : bool :=
  match v with VUndefined => true | _ => false end.

Definition is_null (v : JsVal) : bool :=
  match v with VNull => true | _ => false end.

Definition is_Infinity (v : JsVal) : bool :=
  match v with VNum (S754_infinity false) => true | _ => false end.

(** [v === s] for a string literal [s]. *)
Definition is_str (v : JsVal) (s : string) : bool :=
  match v with VStr x => String.eqb x s | _ => false end.

(** *** Completions

    A call either returns a value or throws. *)
Inductive Completion (E A : Type) : Type :=
| Return (a : A)
| Throw (e : E).
Arguments Return {E A} a.
Arguments Throw {E A} e.

(** The errors the runtime and the helpers create themselves: [new Error()]
    with its message, and the [TypeError] of a property read on
    [undefined]. *)
Inductive NativeError : Type :=
| PlainError (message : string)
| TypeError.

(** *** What the host environment supplies

    Conversions whose result depends on the engine or on objects' own
    methods: the decimal form of a number, the string form of an object,
    locale-aware lower-casing and JSON serialisation with a replacer. *)
Class Host : Type := {
  number_toString : number -> string;
  object_toString : JsVal -> string;
  toLocaleLowerCase : string -> string;
  JSON_stringify : JsVal -> (string -> JsVal -> JsVal) -> JsVal
}.

Section Conversions.
Context `{Host}.

(** [String(v)], the conversion template literals and [join] apply. *)
Definition to_string (v : JsVal) : string :=
  match v with
  | VUndefined => "undefined"
  | VNull => "null"
  | VBool true => "true"
  | VBool false => "false"
  | VNum n => number_toString n
  | VStr s => s
  | VBigInt z => bigint_toString z
  | VDate _ | VArr _ | VObj _ _ _ => object_toString v
  end.

(** [arr.join(sep)]: [undefined] and [null] elements give the empty
    string, every other element its string form. *)
Definition array_join (sep : string) (arr : list JsVal) : string :=
  join sep
    (map (fun v => match v with
                   | VUndefined | VNull => EmptyString
                   | _ => to_string v
                   end) arr).
End Conversions.

End Js.

(* ------------------------------------------------------------------------- *)
(** ** Issues, options and the collaborators of the error maps *)
(* ------------------------------------------------------------------------- *)

Module Zod.
Import Js.

(** A segment of an issue's path: a property name or an array index. *)
Inductive PropertyKey : Type :=
| PKString (s : string)
| PKNumber (n : number).

Definition key_val (k : PropertyKey) : JsVal :=
  match k with PKString s => VStr s | PKNumber n => VNum n end.

(** A bound or a divisor: [number | bigint]. *)
Inductive Numeric : Type :=
| OfNumber (n : number)
| OfBigInt (z : Z).

Definition numeric_val (x : Numeric) : JsVal :=
  match x with OfNumber n => VNum n | OfBigInt z => VBigInt z end.

(** [Number(x)] on a bound. *)
Definition Number (x : Numeric) : number :=
  match x with OfNumber n => n | OfBigInt z => number_of_Z z end.

(** The shape of one option of a discriminated union, reduced to what the
    error map reads: for each property, the [def.values] of its schema when
    that schema has such a field (a literal has). *)
Definition Shape : Type := list (string * option (list JsVal)).

(** The schema an issue came from ([issue.inst]), by the class tests the
    error map makes on it. *)
Inductive Inst : Type :=
| NoInst
| ZodLiteral
| ZodEnum
| ZodUnion
| ZodDiscriminatedUnion (options : list Shape)
| OtherInst.

(** A raw issue as the error map receives it.  The object is read field by
    field whatever its code, so it is one record; a field the issue does not
    have reads as [undefined], [None], the empty list or the empty string. *)
Record Issue : Type := {
  code : string;
  input : JsVal;
  path : option (list PropertyKey);
  message : option string;
  inst : Inst;
  expected : JsVal;
  received : JsVal;
  values : list JsVal;
  keys : list string;
  discriminator : option string;
  format : string;
  prefix : string;
  suffix : string;
  origin : string;
  minimum : Numeric;
  maximum : Numeric;
  exact : option bool;
  inclusive : option bool;
  params : option Obj;
  divisor : Numeric
}.

(** Truthiness of an optional flag. *)
Definition flag (b : option bool) : bool :=
  match b with Some true => true | _ => false end.

(** [issue.params?.i18n]. *)
Definition params_i18n (issue : Issue) : JsVal :=
  match params issue with
  | Some p => match get "i18n" p with Some v => v | None => VUndefined end
  | None => VUndefined
  end.

(** A namespace: [string | readonly string[]]. *)
Inductive Namespace : Type :=
| NsName (s : string)
| NsNames (l : list string).

Definition ns_val (n : Namespace) : JsVal :=
  match n with NsName s => VStr s | NsNames l => VArr (map VStr l) end.

(** The renderer, [i18n["t"]], at the two-argument use the error maps make
    of it. *)
Definition TFunction : Type := string -> Obj -> string.

(** [HandlePathOption].  An optional property is [None] when it is left
    out. *)
Record HandlePathOption : Type := {
  context : option string;
  path_ns : option Namespace;
  keyPrefix : option string
}.

(** [HandlePathOption | false]. *)
Inductive HandlePathSetting : Type :=
| HandlePathFalse
| HandlePathWith (h : HandlePathOption).

(** [ZodI18nMapOption]. *)
Record ZodI18nMapOption : Type := {
  t : option TFunction;
  ns : option Namespace;
  handlePath : option HandlePathSetting
}.

(** What zod's locale formatter may return. *)
Inductive LocaleError : Type :=
| LocaleString (s : string)
| LocaleObject (msg : option string)
| LocaleNullish.

(** The libraries the maps call into: i18next's process-wide [t] and the
    English locale of zod. *)
Class Libraries : Type := {
  i18next_t : TFunction;
  en_localeError : Issue -> LocaleError
}.

Definition defaultNs : string := "zod".

(** The options after the defaults are merged in: the value destructured
    into [{ t, ns, handlePath }] on entry of either map. *)
Record ResolvedHandlePath : Type := {
  r_context : string;
  r_ns : Namespace;
  r_keyPrefix : option string
}.

Record Resolved : Type := {
  the_t : TFunction;
  the_ns : Namespace;
  the_handlePath : option ResolvedHandlePath
}.

Definition or_else {A} (o : option A) (d : A) : A :=
  match o with Some a => a | None => d end.

Section Resolve.
Context `{Libraries}.

Definition resolve (option : option ZodI18nMapOption) : Resolved :=
  let opt_ns := match option with Some o => ns o | None => None end in
  let opt_hp := match option with Some o => handlePath o | None => None end in
  {| the_t := or_else (match option with Some o => t o | None => None end)
                      i18next_t;
     the_ns := or_else opt_ns (NsName defaultNs);
     the_handlePath :=
       match opt_hp with
       | Some HandlePathFalse => None
       | Some (HandlePathWith h) =>
           Some {| r_context := or_else (context h) "with_path";
                   r_ns := or_else (path_ns h)
                             (or_else opt_ns (NsName defaultNs));
                   r_keyPrefix := keyPrefix h |}
       | None =>
           Some {| r_context := "with_path";
                   r_ns := or_else opt_ns (NsName defaultNs);
                   r_keyPrefix := None |}
       end |}.
End Resolve.

(** [[a, b].filter(Boolean)] on optional strings: [undefined] and the empty
    string are dropped. *)
Definition filter_Boolean (l : list (option string)) : list string :=
  flat_map (fun o => match o with
                     | Some s => if nonempty s then [s] else []
                     | None => []
                     end) l.

(** Lookup of a property's schema in a shape. *)
Fixpoint assoc_shape (k : string) (sh : Shape) : option (option (list JsVal)) :=
  match sh with
  | [] => None
  | (k', d) :: rest => if String.eqb k k' then Some d else assoc_shape k rest
  end.

(** What [getKeyAndValues] returns: [{ key, values }]. *)
Record KeyAndValues : Type := { key : string; values_of : JsVal }.

(** The object an error map returns. *)
Record MapResult : Type := { result_message : string }.

(** The sub-key of a [too_small] or [too_big] message. *)
Definition bound_kind (issue : Issue) : string :=
  if flag (exact issue) then "exact"
  else if flag (inclusive issue) then "inclusive"
  else "not_inclusive".

End Zod.

(* ------------------------------------------------------------------------- *)
(** ** packages/core/src/index.ts *)
(* ------------------------------------------------------------------------- *)

Module Core.
Import Js Zod.

Definition jsonStringifyReplacer (_ : string) (value : JsVal) : JsVal :=
  match value with
  | VBigInt z => VStr (bigint_toString z)
  | _ => value
  end.

Definition isRecord (value : JsVal) : bool :=
  match value with
  | VUndefined | VNull | VBool _ | VNum _ | VStr _ | VBigInt _ => false
  | VDate _ | VArr _ => true
  | VObj _ _ inh => match inh with [] => true | _ :: _ => false end
  end.

Definition getKeyAndValues (param : JsVal) (defaultKey : string)
  : KeyAndValues :=
  match param with
  | VStr s => {| key := s; values_of := empty_obj |}
  | _ =>
      if isRecord param then
        let key :=
          if has_property "key" param then
            match get_property "key" param with
            | VStr k => k
            | _ => defaultKey
            end
          else defaultKey in
        let values :=
          if has_property "values" param
             && isRecord (get_property "values" param)
          then get_property "values" param
          else empty_obj in
        {| key := key; values_of := values |}
      else {| key := defaultKey; values_of := empty_obj |}
  end.

Section Map.
Context `{Host} `{Libraries}.

Definition joinValues (array : list JsVal) (separator : string) : string :=
  array_join separator
    (map (fun val => match val with
                     | VStr s => VStr ("'" ++ s ++ "'")
                     | _ => val
                     end) array).

(** [const path = issue?.path && !!handlePath ? { context, path: t(...) } : {}] *)
Definition path_fragment (r : Resolved) (issue : Issue) : Obj :=
  match path issue, the_handlePath r with
  | Some p, Some hp =>
      let joined := array_join "." (map key_val p) in
      [ ("context", VStr (r_context hp));
        ("path",
         VStr (the_t r
                 (join "." (filter_Boolean [r_keyPrefix hp; Some joined]))
                 [ ("ns", ns_val (r_ns hp));
                   ("defaultValue", VStr joined) ])) ]
  | _, _ => []
  end.

Definition makeZodI18nMap (option : option ZodI18nMapOption) (issue : Issue)
  : MapResult :=
  let r := resolve option in
  let t := the_t r in
  let ns := ns_val (the_ns r) in
  let message := or_else (Zod.message issue) "Invalid value" in
  let path := path_fragment r issue in
  let base := [ ("ns", ns); ("defaultValue", VStr message) ] in
  let code := code issue in
  let message :=
    if code =? "invalid_type" then
      if is_str (expected issue) "undefined" then
        t "errors.invalid_type_received_undefined" (spread path base)
      else if is_str (expected issue) "null" then
        t "errors.invalid_type_received_null" (spread path base)
      else
        t "errors.invalid_type"
          (spread path
             [ ("expected",
                VStr (t ("types." ++ to_string (expected issue))
                        [ ("defaultValue", expected issue); ("ns", ns) ]));
               ("received",
                VStr (t ("types." ++ to_string (received issue))
                        [ ("defaultValue", received issue); ("ns", ns) ]));
               ("ns", ns);
               ("defaultValue", VStr message) ])
    else if code =? "invalid_value" then
      t "errors.invalid_literal"
        (spread path
           [ ("expected", JSON_stringify (expected issue) jsonStringifyReplacer);
             ("ns", ns);
             ("defaultValue", VStr message) ])
    else if code =? "unrecognized_keys" then
      t "errors.unrecognized_keys"
        (spread path
           [ ("keys", VStr (joinValues (map VStr (keys issue)) ", "));
             ("count", VNum (number_of_Z (Z.of_nat (List.length (keys issue)))));
             ("ns", ns);
             ("defaultValue", VStr message) ])
    else if code =? "invalid_union" then
      t "errors.invalid_union" (spread path base)
    else if code =? "invalid_format" then
      if format issue =? "date" then
        t "errors.invalid_date" (spread path base)
      else if format issue =? "starts_with" then
        t "errors.invalid_string.startsWith"
          (spread path
             [ ("startsWith", VStr (format issue));
               ("ns", ns);
               ("defaultValue", VStr message) ])
      else if format issue =? "ends_with" then
        t "errors.invalid_string.endsWith"
          (spread path
             [ ("endsWith", VStr (format issue));
               ("ns", ns);
               ("defaultValue", VStr message) ])
      else
        t ("errors.invalid_string." ++ format issue)
          (spread path
             [ ("validation",
                VStr (t ("validations." ++ format issue)
                        [ ("defaultValue", VStr (format issue)); ("ns", ns) ]));
               ("ns", ns);
               ("defaultValue", VStr message) ])
    else if code =? "too_small" then
      let minimum :=
        if origin issue =? "date" then new_Date (Number (minimum issue))
        else numeric_val (minimum issue) in
      t ("errors.too_small." ++ origin issue ++ "." ++ bound_kind issue)
        (spread path
           [ ("minimum", minimum);
             ("count",
              if typeof minimum =? "number" then minimum else VUndefined);
             ("ns", ns);
             ("defaultValue", VStr message) ])
    else if code =? "too_big" then
      let maximum :=
        if origin issue =? "date" then new_Date (Number (maximum issue))
        else numeric_val (maximum issue) in
      t ("errors.too_big." ++ origin issue ++ "." ++ bound_kind issue)
        (spread path
           [ ("maximum", maximum);
             ("count",
              if typeof maximum =? "number" then maximum else VUndefined);
             ("ns", ns);
             ("defaultValue", VStr message) ])
    else if code =? "custom" then
      let kv := getKeyAndValues (params_i18n issue) "errors.custom" in
      t (key kv)
        (spread path
           (set "defaultValue" (VStr message)
              (set "ns" ns (spread (own_enumerable (values_of kv)) []))))
    else if code =? "not_multiple_of" then
      t "errors.not_multiple_of"
        (spread path
           [ ("multipleOf", numeric_val (divisor issue));
             ("ns", ns);
             ("defaultValue", VStr message) ])
    else message in
  {| result_message := message |}.

(** [export const zodI18nMap = makeZodI18nMap();] *)
Definition zodI18nMap : Issue -> MapResult := makeZodI18nMap None.

End Map.
End Core.

(* ------------------------------------------------------------------------- *)
(** ** The error map over zod's English locale *)
(* ------------------------------------------------------------------------- *)

Module Rich.
Import Js Zod.

Definition jsonStringifyReplacer (_ : string) (value : JsVal) : JsVal :=
  match value with
  | VBigInt z => VStr (bigint_toString z)
  | _ => value
  end.

Definition isRecord (value : JsVal) : bool :=
  match value with
  | VUndefined | VNull | VBool _ | VNum _ | VStr _ | VBigInt _ => false
  | VDate _ | VArr _ => true
  | VObj _ _ inh => match inh with [] => true | _ :: _ => false end
  end.

Definition getKeyAndValues (param : JsVal) (defaultKey : string)
  : KeyAndValues :=
  match param with
  | VStr s => {| key := s; values_of := empty_obj |}
  | _ =>
      if isRecord param then
        let key :=
          if has_property "key" param then
            match get_property "key" param with
            | VStr k => k
            | _ => defaultKey
            end
          else defaultKey in
        let values :=
          if has_property "values" param
             && isRecord (get_property "values" param)
          then get_property "values" param
          else empty_obj in
        {| key := key; values_of := values |}
      else {| key := defaultKey; values_of := empty_obj |}
  end.

(** [getReceivedDataType]: the [switch] on [typeof data], whose "object"
    case falls out of the [switch] for a plain object. *)
Definition getReceivedDataType (data : JsVal) : string :=
  let typeofData := typeof data in
  match data with
  | VNum n =>
      if Number_isNaN n then "NaN"
      else if Number_isInteger n then "number"
      else "float"
  | VArr _ => "array"
  | VNull => "null"
  | VDate _ => "Date"
  | VObj (Some name) _ _ => name
  | _ => typeofData
  end.

(** [issue.input instanceof Date && Number.isNaN(issue.input.getTime())] *)
Definition is_invalid_date (v : JsVal) : bool :=
  match v with VDate tv => Number_isNaN tv | _ => false end.

(** [opt.def.shape[discriminator].def.values[0]] for one option: a read on
    [undefined] throws. *)
Definition option_literal (discriminator : option string) (opt : Shape)
  : Completion NativeError JsVal :=
  match assoc_shape (or_else discriminator "undefined") opt with
  | Some (Some vs) => Return (nth 0 vs VUndefined)
  | _ => Throw TypeError
  end.

(** [options.map(...)], stopping at the first throw. *)
Fixpoint map_options (discriminator : option string) (opts : list Shape)
  : Completion NativeError (list JsVal) :=
  match opts with
  | [] => Return []
  | o :: rest =>
      match option_literal discriminator o with
      | Throw e => Throw e
      | Return v =>
          match map_options discriminator rest with
          | Throw e => Throw e
          | Return vs => Return (v :: vs)
          end
      end
  end.

Section Map.
Context `{Host} `{Libraries}.

Definition joinValues (array : list JsVal) (separator : string) : string :=
  array_join separator
    (map (fun val => match val with
                     | VStr s => VStr ("'" ++ s ++ "'")
                     | VBigInt z => VStr (bigint_toString z)
                     | _ => val
                     end) array).

(** [(typeof errorMsg === "string" ? errorMsg : errorMsg?.message) ?? (empty string)] *)
Definition fallback_message (issue : Issue) : string :=
  match en_localeError issue with
  | LocaleString s => s
  | LocaleObject (Some m) => m
  | LocaleObject None | LocaleNullish => EmptyString
  end.

(** [const path = (issue.path?.length ?? 0) > 0 && !!handlePath
                  ? { context, path: t(...) } : {}] *)
Definition path_fragment (r : Resolved) (issue : Issue) : Obj :=
  match path issue, the_handlePath r with
  | Some (seg :: segs), Some hp =>
      let joined := array_join "." (map key_val (seg :: segs)) in
      [ ("context", VStr (r_context hp));
        ("path",
         VStr (the_t r
                 (join "." (filter_Boolean [r_keyPrefix hp; Some joined]))
                 [ ("ns", ns_val (r_ns hp));
                   ("defaultValue", VStr joined) ])) ]
  | _, _ => []
  end.

Definition makeZodI18nMap (option : option ZodI18nMapOption) (issue : Issue)
  : Completion NativeError MapResult :=
  let r := resolve option in
  let t := the_t r in
  let ns := ns_val (the_ns r) in
  let message := fallback_message issue in
  let path := path_fragment r issue in
  let base := [ ("ns", ns); ("defaultValue", VStr message) ] in
  let code := code issue in
  let done (m : string) : Completion NativeError MapResult :=
    Return {| result_message := m |} in
  if code =? "invalid_type" then
    if is_undefined (input issue) then
      done (t "errors.invalid_type_received_undefined" (spread path base))
    else if is_null (input issue) then
      done (t "errors.invalid_type_received_null" (spread path base))
    else if is_Infinity (input issue) then
      done (t "errors.not_finite" (spread path base))
    else if is_invalid_date (input issue) then
      done (t "errors.invalid_date" (spread path base))
    else
      let received :=
        toLocaleLowerCase (getReceivedDataType (input issue)) in
      done
        (t "errors.invalid_type"
           (spread path
              [ ("expected",
                 VStr (t ("types." ++ to_string (expected issue))
                         [ ("defaultValue", expected issue); ("ns", ns) ]));
                ("received",
                 VStr (t ("types." ++ received)
                         [ ("defaultValue", VStr received); ("ns", ns) ]));
                ("ns", ns);
                ("defaultValue", VStr message) ]))
  else if code =? "invalid_value" then
    match inst issue with
    | ZodLiteral =>
        done
          (t "errors.invalid_literal"
             (spread path
                [ ("expected", VStr (joinValues (values issue) " | "));
                  ("ns", ns);
                  ("defaultValue", VStr message) ]))
    | ZodEnum =>
        done
          (t "errors.invalid_enum_value"
             (spread path
                [ ("options", VStr (joinValues (values issue) " | "));
                  ("received", input issue);
                  ("ns", ns);
                  ("defaultValue", VStr message) ]))
    | _ => done message
    end
  else if code =? "unrecognized_keys" then
    done
      (t "errors.unrecognized_keys"
         (spread path
            [ ("keys", VStr (joinValues (map VStr (keys issue)) ", "));
              ("count", VNum (number_of_Z (Z.of_nat (List.length (keys issue)))));
              ("ns", ns);
              ("defaultValue", VStr message) ]))
  else if code =? "invalid_union" then
    match inst issue with
    | ZodDiscriminatedUnion options =>
        match map_options (discriminator issue) options with
        | Throw e => Throw e
        | Return options =>
            done
              (t "errors.invalid_union_discriminator"
                 (spread path
                    [ ("options", VStr (joinValues options " | "));
                      ("ns", ns);
                      ("defaultValue", VStr message) ]))
        end
    | ZodUnion => done (t "errors.invalid_union" (spread path base))
    | _ => done (t "errors.invalid_union" (spread path base))
    end
  else if code =? "invalid_format" then
    if format issue =? "date" then
      done (t "errors.invalid_date" (spread path base))
    else if format issue =? "starts_with" then
      done
        (t "errors.invalid_string.startsWith"
           (spread path
              [ ("startsWith", VStr (prefix issue));
                ("ns", ns);
                ("defaultValue", VStr message) ]))
    else if format issue =? "ends_with" then
      done
        (t "errors.invalid_string.endsWith"
           (spread path
              [ ("endsWith", VStr (suffix issue));
                ("ns", ns);
                ("defaultValue", VStr message) ]))
    else
      done
        (t ("errors.invalid_string." ++ format issue)
           (spread path
              [ ("validation",
                 VStr (t ("validations." ++ format issue)
                         [ ("defaultValue", VStr (format issue)); ("ns", ns) ]));
                ("ns", ns);
                ("defaultValue", VStr message) ]))
  else if code =? "too_small" then
    let minimum :=
      if origin issue =? "date" then new_Date (Number (minimum issue))
      else numeric_val (minimum issue) in
    done
      (t ("errors.too_small." ++ origin issue ++ "." ++ bound_kind issue)
         (spread path
            [ ("minimum", minimum);
              ("count",
               if typeof minimum =? "number" then minimum else VUndefined);
              ("ns", ns);
              ("defaultValue", VStr message) ]))
  else if code =? "too_big" then
    let maximum :=
      if origin issue =? "date" then new_Date (Number (maximum issue))
      else numeric_val (maximum issue) in
    done
      (t ("errors.too_big." ++ origin issue ++ "." ++ bound_kind issue)
         (spread path
            [ ("maximum", maximum);
              ("count",
               if typeof maximum =? "number" then maximum else VUndefined);
              ("ns", ns);
              ("defaultValue", VStr message) ]))
  else if code =? "custom" then
    let kv := getKeyAndValues (params_i18n issue) "errors.custom" in
    done
      (t (key kv)
         (spread path
            (set "defaultValue" (VStr message)
               (set "ns" ns (spread (own_enumerable (values_of kv)) [])))))
  else if code =? "not_multiple_of" then
    done
      (t "errors.not_multiple_of"
         (spread path
            [ ("multipleOf", numeric_val (divisor issue));
              ("ns", ns);
              ("defaultValue", VStr message) ]))
  else done message.

(** [export const zodI18nMap = makeZodI18nMap();] *)
Definition zodI18nMap : Issue -> Completion NativeError MapResult :=
  makeZodI18nMap None.

End Map.
End Rich.

(* ------------------------------------------------------------------------- *)
(** ** The error-message helpers *)
(* ------------------------------------------------------------------------- *)

Module Helpers.
Import Js.

(** An issue of a finished error: it has its message. *)
Record ZodIssue : Type := { message : string }.

(** [$ZodError]. *)
Record ZodError : Type := { issues : list ZodIssue }.

(** [ZodSafeParseResult<unknown>]: [{ success: true, data }] or
    [{ success: false, error }]. *)
Inductive ZodSafeParseResult : Type :=
| Success (data : JsVal)
| Failure (error : ZodError).

(** [parsed.error] *)
Definition error (parsed : ZodSafeParseResult) : option ZodError :=
  match parsed with Success _ => None | Failure e => Some e end.

(** What a [throw] can carry: an instance of [$ZodError], an error the
    runtime or the helpers made, or any other value. *)
Inductive Thrown : Type :=
| ThrownZodError (e : ZodError)
| ThrownNative (e : NativeError)
| ThrownValue (v : JsVal).

(** [e.issues[0].message]: reading [message] on a missing first issue
    throws. *)
Definition first_message (e : ZodError) : Completion Thrown string :=
  match issues e with
  | i :: _ => Return (message i)
  | [] => Throw (ThrownNative TypeError)
  end.

Definition getErrorMessage (parsed : ZodSafeParseResult)
  : Completion Thrown string :=
  match error parsed with
  | Some e => first_message e
  | None => Throw (ThrownNative (PlainError EmptyString))
  end.

Section Callback.
(** Whatever the callback can read and change. *)
Variable World : Type.

(** [() => void]: run from a state, it returns or throws and leaves a
    state. *)
Definition Callback : Type := World -> Completion Thrown unit * World.

(** The helper returns [string | undefined]; [None] is [undefined]. *)
Definition getErrorMessageFromZodError (callback : Callback) (w : World)
  : Completion Thrown (option string) * World :=
  match callback w with
  | (Return _, w') => (Return None, w')
  | (Throw (ThrownZodError e), w') =>
      match first_message e with
      | Return m => (Return (Some m), w')
      | Throw x => (Throw x, w')
      end
  | (Throw e, w') => (Throw e, w')
  end.

End Callback.
End Helpers.

(* ------------------------------------------------------------------------- *)
(** ** A concrete environment and concrete issues *)
(* ------------------------------------------------------------------------- *)

Module Sample.
Import Js Zod.

(** ASCII lower-casing. *)
Definition lower_ascii (c : ascii) : ascii :=
  let n := nat_of_ascii c in
  if (65 <=? n)%nat && (n <=? 90)%nat then ascii_of_nat (n + 32) else c.

Fixpoint lower (s : string) : string :=
  match s with
  | EmptyString => EmptyString
  | String c rest => String (lower_ascii c) (lower rest)
  end.

(** A host for the examples: integers, infinities and NaN print as the
    engine prints them (the examples use no other number), objects print as
    a plain object does, and JSON serialisation is given on the scalars the
    examples serialise. *)
#[export] Instance host : Host := {
  number_toString n :=
    match n with
    | S754_nan => "NaN"
    | S754_infinity false => "Infinity"
    | S754_infinity true => "-Infinity"
    | _ => bigint_toString (truncate n)
    end;
  object_toString _ := "[object Object]";
  toLocaleLowerCase := lower;
  JSON_stringify v replacer :=
    match replacer EmptyString v with
    | VStr s => VStr (String "034"%char s ++ String "034"%char EmptyString)
    | VNull => VStr "null"
    | VBool true => VStr "true"
    | VBool false => VStr "false"
    | VNum n => VStr (bigint_toString (truncate n))
    | _ => VUndefined
    end
}.

(** Libraries for the examples: an i18next with no catalogue, whose [t]
    gives back the default value it is handed (or the key when there is
    none), and a locale formatter with one message. *)
#[export] Instance libraries : Libraries := {
  i18next_t k params :=
    match get "defaultValue" params with
    | Some (VStr s) => s
    | _ => k
    end;
  en_localeError _ := LocaleString "Invalid input"
}.

(** Renderers that show what they were called with: the key, or one of the
    parameters. *)
Definition show_key : TFunction := fun k _ => k.

Definition show_param (name : string) : TFunction :=
  fun _ params =>
    match get name params with
    | Some v => to_string v
    | None => "(absent)"
    end.

Definition with_t (f : TFunction) : option ZodI18nMapOption :=
  Some {| t := Some f; ns := None; handlePath := None |}.

(** An issue with the fields the examples vary; the others are fixed. *)
Definition issue (code : string) (input : JsVal)
    (path : option (list PropertyKey)) (inst : Inst) (format : string)
    (params : option Obj) : Issue :=
  {| code := code;
     input := input;
     path := path;
     message := None;
     inst := inst;
     expected := if code =? "invalid_type" then VStr "string" else VUndefined;
     received := VUndefined;
     values := [VStr "a"; VStr "b"];
     keys := [];
     discriminator := None;
     format := format;
     prefix := "abc";
     suffix := "xyz";
     origin := "string";
     minimum := OfNumber (number_of_Z 5);
     maximum := OfNumber (number_of_Z 5);
     exact := None;
     inclusive := Some true;
     params := params;
     divisor := OfNumber (number_of_Z 2) |}.

(** [z.string()] given nothing: [{ code: "invalid_type", expected: "string",
    input: undefined }]. *)
Definition missing_string : Issue :=
  issue "invalid_type" VUndefined None NoInst EmptyString None.

(** A refinement that failed at the root: its path is the empty array. *)
Definition root_refinement : Issue :=
  issue "custom" (VStr "x") (Some []) OtherInst EmptyString None.

(** The same issue under [user.email]. *)
Definition nested_refinement : Issue :=
  issue "custom" (VStr "x")
        (Some [PKString "user"; PKString "email"]) OtherInst EmptyString None.

(** [z.string().startsWith("abc")] and [z.string().endsWith("xyz")] given
    ["hello"]. *)
Definition bad_prefix : Issue :=
  issue "invalid_format" (VStr "hello") None OtherInst "starts_with" None.

Definition bad_suffix : Issue :=
  issue "invalid_format" (VStr "hello") None OtherInst "ends_with" None.

(** [z.enum(["a", "b"])] and [z.literal(...)] given ["c"]. *)
Definition bad_enum : Issue :=
  issue "invalid_value" (VStr "c") None ZodEnum EmptyString None.

Definition bad_literal : Issue :=
  issue "invalid_value" (VStr "c") None ZodLiteral EmptyString None.

(** [z.string().min(5)] given ["abc"]. *)
Definition short_string : Issue :=
  issue "too_small" (VStr "abc") None OtherInst EmptyString None.

(** A refinement that failed with [params: { i18n }]. *)
Definition custom_with (i18n : JsVal) : Issue :=
  issue "custom" (VStr "x") None OtherInst EmptyString (Some [("i18n", i18n)]).

(** [{ key: "my.key", values: { x: 1 } }] *)
Definition my_key_x : JsVal :=
  VObj None [ ("key", VStr "my.key");
              ("values", VObj None [("x", VNum (number_of_Z 1))] []) ] [].

(** [{ key: "my.key", values: { defaultValue: "mine" } }] *)
Definition my_key_default : JsVal :=
  VObj None [ ("key", VStr "my.key");
              ("values", VObj None [("defaultValue", VStr "mine")] []) ] [].

(** A failed and a successful parse. *)
Definition failed_parse : Helpers.ZodSafeParseResult :=
  Helpers.Failure
    {| Helpers.issues := [ {| Helpers.message := "Required" |};
                           {| Helpers.message := "Too short" |} ] |}.

Definition good_parse : Helpers.ZodSafeParseResult :=
  Helpers.Success (VStr "ok").

(** Callbacks over a counter of calls: one throws a zod error, one throws
    a string, one returns. *)
Definition throws_zod : Helpers.Callback nat :=
  fun n => (Throw (Helpers.ThrownZodError
                     {| Helpers.issues := [ {| Helpers.message := "Required" |} ] |}),
            S n).

Definition throws_string : Helpers.Callback nat :=
  fun n => (Throw (Helpers.ThrownValue (VStr "boom")), S n).

Definition returns : Helpers.Callback nat :=
  fun n => (Return tt, S n).

End Sample.

(* ------------------------------------------------------------------------- *)
(** ** Further issues and options for the examples *)
(* ------------------------------------------------------------------------- *)

Module MoreSamples.
Import Js Zod.

(** The codes the [switch] of either map has a case for. *)
Definition rendered_codes : list string :=
  [ "invalid_type"; "invalid_value"; "unrecognized_keys"; "invalid_union";
    "invalid_format"; "too_small"; "too_big"; "custom"; "not_multiple_of" ].

(** The text one value contributes to [joinValues]: a string is quoted,
    [undefined] and [null] give nothing, anything else its string form. *)
Definition shown {H : Host} (v : JsVal) : string :=
  match v with
  | VStr s => "'" ++ s ++ "'"
  | VUndefined | VNull => EmptyString
  | _ => to_string v
  end.

(** Render parameters that carry the namespace, the fallback message as
    default value, and every property of the path fragment. *)
Definition carries (params fragment : Obj) (ns message : JsVal) : Prop :=
  get "ns" params = Some ns
  /\ get "defaultValue" params = Some message
  /\ forall k v, get k fragment = Some v -> get k params = Some v.

(** A renderer over a catalogue without entries: it gives back the default
    value it is handed. *)
Definition falls_back (t : TFunction) : Prop :=
  forall (k : string) (params : Obj) (s : string),
    get "defaultValue" params = Some (VStr s) -> t k params = s.

(** The option of a discriminated union has a literal under the
    discriminator, and [v] is the first value of that literal. *)
Definition first_literal (d : option string) (opt : Shape) (v : JsVal) : Prop :=
  exists lits,
    assoc_shape (or_else d "undefined") opt = Some (Some lits)
    /\ v = nth 0 lits VUndefined.

(** The same issue with another path. *)
Definition with_path (p : option (list PropertyKey)) (i : Issue) : Issue :=
  {| code := code i;
     input := input i;
     path := p;
     message := message i;
     inst := inst i;
     expected := expected i;
     received := received i;
     values := values i;
     keys := keys i;
     discriminator := discriminator i;
     format := format i;
     prefix := prefix i;
     suffix := suffix i;
     origin := origin i;
     minimum := minimum i;
     maximum := maximum i;
     exact := exact i;
     inclusive := inclusive i;
     params := params i;
     divisor := divisor i |}.

(** The same issue with other unrecognised keys, and with another
    discriminator. *)
Definition with_keys (ks : list string) (i : Issue) : Issue :=
  {| code := code i;
     input := input i;
     path := path i;
     message := message i;
     inst := inst i;
     expected := expected i;
     received := received i;
     values := values i;
     keys := ks;
     discriminator := discriminator i;
     format := format i;
     prefix := prefix i;
     suffix := suffix i;
     origin := origin i;
     minimum := minimum i;
     maximum := maximum i;
     exact := exact i;
     inclusive := inclusive i;
     params := params i;
     divisor := divisor i |}.

Definition with_discriminator (d : option string) (i : Issue) : Issue :=
  {| code := code i;
     input := input i;
     path := path i;
     message := message i;
     inst := inst i;
     expected := expected i;
     received := received i;
     values := values i;
     keys := keys i;
     discriminator := d;
     format := format i;
     prefix := prefix i;
     suffix := suffix i;
     origin := origin i;
     minimum := minimum i;
     maximum := maximum i;
     exact := exact i;
     inclusive := inclusive i;
     params := params i;
     divisor := divisor i |}.

(** [z.strictObject({})] given [{ a: 1, b: 2 }]. *)
Definition extra_keys : Issue :=
  with_keys ["a"; "b"]
    (Sample.issue "unrecognized_keys" (VObj None [] []) None OtherInst
       EmptyString None).

(** A discriminated union on [type] with the options [{ type: "a" }] and
    [{ type: "b" }], and one whose second option has no [type]. *)
Definition tagged_union : Issue :=
  with_discriminator (Some "type")
    (Sample.issue "invalid_union" (VObj None [] []) None
       (ZodDiscriminatedUnion
          [ [("type", Some [VStr "a"])]; [("type", Some [VStr "b"])] ])
       EmptyString None).


(** [z.string().max(5)] given a longer string. *)
Definition long_string : Issue :=
  Sample.issue "too_big" (VStr "abcdefgh") None OtherInst EmptyString None.

(** [z.number()] given [-Infinity], [null] and an invalid [Date]. *)
Definition type_issue (input : JsVal) : Issue :=
  Sample.issue "invalid_type" input None OtherInst EmptyString None.

(** An issue with a code neither map knows. *)
Definition unknown_code : Issue :=
  Sample.issue "invalid_key" (VStr "x") None OtherInst EmptyString None.

(** [z.number().multipleOf(2)] given [3]. *)
Definition odd_number : Issue :=
  Sample.issue "not_multiple_of" (VNum (number_of_Z 3)) None OtherInst
    EmptyString None.


Definition no_path_options : ZodI18nMapOption :=
  {| t := Some Sample.show_key; ns := None; handlePath := Some HandlePathFalse |}.

(** Libraries whose locale formatter gives the message [packages/core]
    falls back to. *)
Definition plain_libraries : Libraries :=
  {| i18next_t := fun k params =>
       match get "defaultValue" params with
       | Some (VStr s) => s
       | _ => k
       end;
     en_localeError := fun _ => LocaleString "Invalid value" |}.

(** A renderer that shows the [received] parameter, and the key when
    there is none. *)
Definition show_received : TFunction :=
  fun k params =>
    match get "received" params with
    | Some (VStr s) => s
    | _ => k
    end.

(** The codes whose case reads the same in both files. *)
Definition shared_codes : list string :=
  [ "unrecognized_keys"; "too_small"; "too_big"; "custom"; "not_multiple_of" ].

(** A callback that throws a zod error without issues. *)
Definition throws_empty_zod : Helpers.Callback nat :=
  fun n => (Throw (Helpers.ThrownZodError {| Helpers.issues := [] |}), S n).

End MoreSamples.

(* ------------------------------------------------------------------------- *)
(** ** Properties of object literals *)
(* ------------------------------------------------------------------------- *)

Module ObjFacts.
Import Js.

Lemma get_set_same (k : string) (v : JsVal) (o : Obj) :
  get k (set k v o) = Some v.
Proof.
  induction o as [| [k' v'] rest IH]; simpl.
  - now rewrite String.eqb_refl.
  - destruct (String.eqb k k') eqn:E; simpl; rewrite E; auto.
Qed.

Lemma get_set_other (k k' : string) (v : JsVal) (o : Obj) :
  k <> k' -> get k (set k' v o) = get k o.
Proof.
  intros Hne.
  induction o as [| [k0 v0] rest IH]; simpl.
  - apply String.eqb_neq in Hne. now rewrite Hne.
  - destruct (String.eqb k' k0) eqn:E; simpl.
    + apply String.eqb_eq in E; subst k0.
      apply String.eqb_neq in Hne. now rewrite Hne.
    + now rewrite IH.
Qed.

Lemma get_set (k k' : string) (v : JsVal) (o : Obj) :
  get k (set k' v o) = if String.eqb k k' then Some v else get k o.
Proof.
  destruct (String.eqb k k') eqn:E.
  - apply String.eqb_eq in E; subst. apply get_set_same.
  - apply String.eqb_neq in E. now apply get_set_other.
Qed.

(** A spread of nothing leaves the object as it is. *)
Lemma spread_nil (o : Obj) : spread [] o = o.
Proof. reflexivity. Qed.

Lemma spread_cons (k : string) (v : JsVal) (src o : Obj) :
  spread ((k, v) :: src) o = spread src (set k v o).
Proof. reflexivity. Qed.

(** A property the spread source does not have keeps the value it had. *)
Lemma get_spread_absent (k : string) (src o : Obj) :
  get k src = None -> get k (spread src o) = get k o.
Proof.
  revert o.
  induction src as [| [k' v'] rest IH]; intros o Hk.
  - reflexivity.
  - simpl in Hk.
    destruct (String.eqb k k') eqn:E; [discriminate |].
    rewrite spread_cons, IH by assumption.
    apply String.eqb_neq in E. now apply get_set_other.
Qed.

(** Spreading never removes a property. *)
Lemma get_spread_defined (k : string) (src o : Obj) :
  get k o <> None -> get k (spread src o) <> None.
Proof.
  revert o.
  induction src as [| [k' v'] rest IH]; intros o Hk.
  - assumption.
  - rewrite spread_cons. apply IH. rewrite get_set.
    destruct (String.eqb k k'); [discriminate | assumption].
Qed.

(** A fragment of two distinct properties, spread last, decides both. *)
Lemma get_spread_pair (k k1 k2 : string) (v1 v2 : JsVal) (o : Obj) :
  get k (spread [(k1, v1); (k2, v2)] o) =
  if String.eqb k k2 then Some v2
  else if String.eqb k k1 then Some v1
  else get k o.
Proof.
  unfold spread; simpl. now rewrite !get_set.
Qed.

End ObjFacts.

(* ------------------------------------------------------------------------- *)
(** ** The error-message helpers *)
(* ------------------------------------------------------------------------- *)

Module HelpersSpec.
Import Js Helpers.

(** C7. [getErrorMessage] returns the message of the first issue of the
    result's error when the result has an error, and throws a plain [Error]
    without message when it has none. *)
Theorem getErrorMessage_first_issue_or_throws :
  (forall (parsed : ZodSafeParseResult) (e : ZodError) (i : ZodIssue)
          (rest : list ZodIssue),
      error parsed = Some e ->
      issues e = i :: rest ->
      getErrorMessage parsed = Return (message i))
  /\
  (forall parsed : ZodSafeParseResult,
      error parsed = None ->
      getErrorMessage parsed = Throw (ThrownNative (PlainError EmptyString))).
Proof.
  split.
  - intros parsed e i rest He Hi.
    unfold getErrorMessage, first_message. now rewrite He, Hi.
  - intros parsed He. unfold getErrorMessage. now rewrite He.
Qed.

Lemma getErrorMessage_first_issue_or_throws_witness :
  getErrorMessage Sample.failed_parse = Return "Required"
  /\ getErrorMessage Sample.good_parse
     = Throw (ThrownNative (PlainError EmptyString)).
Proof.
  split.
  - apply (proj1 getErrorMessage_first_issue_or_throws
             Sample.failed_parse
             {| issues := [ {| message := "Required" |};
                            {| message := "Too short" |} ] |}
             {| message := "Required" |}
             [ {| message := "Too short" |} ]); reflexivity.
  - apply (proj2 getErrorMessage_first_issue_or_throws Sample.good_parse).
    reflexivity.
Defined.

(** A successful result has no error, so the helper throws on it. *)
Lemma getErrorMessage_success (data : JsVal) :
  getErrorMessage (Success data) = Throw (ThrownNative (PlainError EmptyString)).
Proof. reflexivity. Qed.

(** C8. [getErrorMessageFromZodError] runs its callback once; when the
    callback throws a [$ZodError] it returns the message of that error's
    first issue, and when it throws anything else it throws that same value
    again.  In both cases the state is the one the callback left. *)
Theorem getErrorMessageFromZodError_catches_only_zod_errors
    (World : Type) (callback : Callback World) (w w' : World) (x : Thrown) :
  callback w = (Throw x, w') ->
  match x with
  | ThrownZodError e =>
      forall (i : ZodIssue) (rest : list ZodIssue),
        issues e = i :: rest ->
        getErrorMessageFromZodError World callback w
        = (Return (Some (message i)), w')
  | _ => getErrorMessageFromZodError World callback w = (Throw x, w')
  end.
Proof.
  intros Hcb. unfold getErrorMessageFromZodError. rewrite Hcb.
  destruct x as [e | n | v]; try reflexivity.
  intros i rest Hi. unfold first_message. now rewrite Hi.
Qed.

Lemma getErrorMessageFromZodError_catches_only_zod_errors_witness :
  getErrorMessageFromZodError nat Sample.throws_zod 0
  = (Return (Some "Required"), 1)
  /\ getErrorMessageFromZodError nat Sample.throws_string 0
     = (Throw (ThrownValue (VStr "boom")), 1).
Proof.
  split.
  - apply (getErrorMessageFromZodError_catches_only_zod_errors
             nat Sample.throws_zod 0 1
             (ThrownZodError {| issues := [ {| message := "Required" |} ] |})
             eq_refl {| message := "Required" |} []).
    reflexivity.
  - apply (getErrorMessageFromZodError_catches_only_zod_errors
             nat Sample.throws_string 0 1 (ThrownValue (VStr "boom"))).
    reflexivity.
Defined.

(** C9. When the callback returns, [getErrorMessageFromZodError] returns
    [undefined]: it neither throws nor gives a string. *)
Theorem getErrorMessageFromZodError_returns_undefined
    (World : Type) (callback : Callback World) (w w' : World) (u : unit) :
  callback w = (Return u, w') ->
  getErrorMessageFromZodError World callback w = (Return None, w').
Proof.
  intros Hcb. unfold getErrorMessageFromZodError. now rewrite Hcb.
Qed.

Lemma getErrorMessageFromZodError_returns_undefined_witness :
  getErrorMessageFromZodError nat Sample.returns 0 = (Return None, 1).
Proof.
  apply (getErrorMessageFromZodError_returns_undefined
           nat Sample.returns 0 1 tt).
  reflexivity.
Defined.

End HelpersSpec.

(* ------------------------------------------------------------------------- *)
(** ** The error maps *)
(* ------------------------------------------------------------------------- *)

Module MapSpec.
Import Js Zod ObjFacts.

Section Branches.
Context {H : Host} {L : Libraries}.
Variable option : option ZodI18nMapOption.
Variable issue : Issue.

(** The path fragment is empty or holds exactly [context] and [path]. *)
Lemma core_path_fragment_cases (r : Resolved) :
  Core.path_fragment r issue = []
  \/ exists c p,
       Core.path_fragment r issue = [("context", c); ("path", p)].
Proof.
  unfold Core.path_fragment.
  destruct (path issue), (the_handlePath r); eauto.
Qed.

Lemma rich_path_fragment_cases (r : Resolved) :
  Rich.path_fragment r issue = []
  \/ exists c p,
       Rich.path_fragment r issue = [("context", c); ("path", p)].
Proof.
  unfold Rich.path_fragment.
  destruct (path issue) as [[| seg segs] |], (the_handlePath r); eauto.
Qed.

(** The [case "custom"] branch of each map. *)
Lemma core_custom_branch :
  code issue = "custom" ->
  let r := resolve option in
  let kv := Core.getKeyAndValues (params_i18n issue) "errors.custom" in
  Core.makeZodI18nMap option issue
  = {| result_message :=
         the_t r (key kv)
           (spread (Core.path_fragment r issue)
              (set "defaultValue"
                 (VStr (or_else (message issue) "Invalid value"))
                 (set "ns" (ns_val (the_ns r))
                    (spread (own_enumerable (values_of kv)) [])))) |}.
Proof.
  intros Hc. unfold Core.makeZodI18nMap. rewrite Hc. reflexivity.
Qed.

Lemma rich_custom_branch :
  code issue = "custom" ->
  let r := resolve option in
  let kv := Rich.getKeyAndValues (params_i18n issue) "errors.custom" in
  Rich.makeZodI18nMap option issue
  = Return
      {| result_message :=
           the_t r (key kv)
             (spread (Rich.path_fragment r issue)
                (set "defaultValue" (VStr (Rich.fallback_message issue))
                   (set "ns" (ns_val (the_ns r))
                      (spread (own_enumerable (values_of kv)) [])))) |}.
Proof.
  intros Hc. unfold Rich.makeZodI18nMap. rewrite Hc. reflexivity.
Qed.

(** The [case "too_small"] branch of each map. *)
Lemma core_too_small_branch :
  code issue = "too_small" ->
  let r := resolve option in
  let minimum :=
    if origin issue =? "date" then new_Date (Number (minimum issue))
    else numeric_val (minimum issue) in
  Core.makeZodI18nMap option issue
  = {| result_message :=
         the_t r
           ("errors.too_small." ++ origin issue ++ "." ++ bound_kind issue)
           (spread (Core.path_fragment r issue)
              [ ("minimum", minimum);
                ("count",
                 if typeof minimum =? "number" then minimum else VUndefined);
                ("ns", ns_val (the_ns r));
                ("defaultValue",
                 VStr (or_else (message issue) "Invalid value")) ]) |}.
Proof.
  intros Hc. unfold Core.makeZodI18nMap. rewrite Hc. reflexivity.
Qed.

Lemma rich_too_small_branch :
  code issue = "too_small" ->
  let r := resolve option in
  let minimum :=
    if origin issue =? "date" then new_Date (Number (minimum issue))
    else numeric_val (minimum issue) in
  Rich.makeZodI18nMap option issue
  = Return
      {| result_message :=
           the_t r
             ("errors.too_small." ++ origin issue ++ "." ++ bound_kind issue)
             (spread (Rich.path_fragment r issue)
                [ ("minimum", minimum);
                  ("count",
                   if typeof minimum =? "number" then minimum else VUndefined);
                  ("ns", ns_val (the_ns r));
                  ("defaultValue", VStr (Rich.fallback_message issue)) ]) |}.
Proof.
  intros Hc. unfold Rich.makeZodI18nMap. rewrite Hc. reflexivity.
Qed.

End Branches.

(** A path fragment spread over parameters leaves every parameter that is
    neither [context] nor [path] as it was. *)
Lemma get_under_fragment (frag o : Obj) (k : string) :
  frag = [] \/ (exists c p, frag = [("context", c); ("path", p)]) ->
  k <> "context" -> k <> "path" ->
  get k (spread frag o) = get k o.
Proof.
  intros [-> | (c & p & ->)] Hc Hp.
  - reflexivity.
  - rewrite get_spread_pair.
    apply String.eqb_neq in Hc, Hp. now rewrite Hc, Hp.
Qed.

End MapSpec.

(* ------------------------------------------------------------------------- *)
(** ** Size bounds *)
(* ------------------------------------------------------------------------- *)

Module BoundSpec.
Import Js Zod ObjFacts MapSpec.

(** The concrete environment of the examples. *)
#[local] Existing Instance Sample.host.
#[local] Existing Instance Sample.libraries.

(** The value passed as [count] is defined exactly for a bound that is a
    number. *)
Lemma count_defined_iff_number (v : JsVal) :
  v <> VUndefined ->
  (if typeof v =? "number" then v else VUndefined) <> VUndefined
  <-> typeof v = "number".
Proof.
  intros Hv. destruct v; simpl; split; intros Hx;
    try reflexivity; try discriminate; try congruence.
Qed.

(** C5. For a [too_small] issue both maps render the key
    [errors.too_small.{origin}.{exact|inclusive|not_inclusive}], where
    [exact] is tried first and [inclusive] next; the [minimum] parameter is
    the issue's minimum, made a [Date] when the origin is ["date"]; and the
    [count] parameter is that (converted) minimum when it is a number and
    [undefined] otherwise. *)
Theorem too_small_key_minimum_and_count
    {H : Host} {L : Libraries}
    (option : option ZodI18nMapOption) (issue : Issue) :
  code issue = "too_small" ->
  let r := resolve option in
  let kind :=
    if flag (exact issue) then "exact"
    else if flag (inclusive issue) then "inclusive"
    else "not_inclusive" in
  let key := "errors.too_small." ++ origin issue ++ "." ++ kind in
  let minimum :=
    if origin issue =? "date" then new_Date (Number (Zod.minimum issue))
    else numeric_val (Zod.minimum issue) in
  let count := if typeof minimum =? "number" then minimum else VUndefined in
  let params_core :=
    spread (Core.path_fragment r issue)
      [ ("minimum", minimum); ("count", count);
        ("ns", ns_val (the_ns r));
        ("defaultValue", VStr (or_else (message issue) "Invalid value")) ] in
  let params_rich :=
    spread (Rich.path_fragment r issue)
      [ ("minimum", minimum); ("count", count);
        ("ns", ns_val (the_ns r));
        ("defaultValue", VStr (Rich.fallback_message issue)) ] in
  Core.makeZodI18nMap option issue
    = {| result_message := the_t r key params_core |}
  /\ Rich.makeZodI18nMap option issue
    = Return {| result_message := the_t r key params_rich |}
  /\ get "minimum" params_core = Some minimum
  /\ get "minimum" params_rich = Some minimum
  /\ get "count" params_core = Some count
  /\ get "count" params_rich = Some count
  /\ (count <> VUndefined <-> typeof minimum = "number")
  /\ (typeof minimum = "number" -> count = minimum).
Proof.
  intros Hc r kind key minimum count params_core params_rich.
  assert (Hmin : minimum <> VUndefined).
  { subst minimum. destruct (origin issue =? "date"); [discriminate |].
    destruct (Zod.minimum issue); discriminate. }
  repeat split.
  - now apply core_too_small_branch.
  - now apply rich_too_small_branch.
  - subst params_core.
    rewrite (get_under_fragment _ _ "minimum"
               (core_path_fragment_cases issue r)); [reflexivity | |];
      discriminate.
  - subst params_rich.
    rewrite (get_under_fragment _ _ "minimum"
               (rich_path_fragment_cases issue r)); [reflexivity | |];
      discriminate.
  - subst params_core.
    rewrite (get_under_fragment _ _ "count"
               (core_path_fragment_cases issue r)); [reflexivity | |];
      discriminate.
  - subst params_rich.
    rewrite (get_under_fragment _ _ "count"
               (rich_path_fragment_cases issue r)); [reflexivity | |];
      discriminate.
  - now apply count_defined_iff_number.
  - now apply count_defined_iff_number.
  - intros Hn. subst count. now rewrite Hn.
Qed.

Lemma too_small_key_minimum_and_count_witness :
  Rich.makeZodI18nMap (Sample.with_t Sample.show_key) Sample.short_string
  = Return {| result_message := "errors.too_small.string.inclusive" |}.
Proof.
  apply (too_small_key_minimum_and_count
           (Sample.with_t Sample.show_key) Sample.short_string eq_refl).
Defined.

(** A date bound never gives a [count]. *)
Lemma too_small_date_has_no_count
    {H : Host} {L : Libraries}
    (option : option ZodI18nMapOption) (issue : Issue) :
  code issue = "too_small" ->
  origin issue = "date" ->
  Rich.makeZodI18nMap option issue
  = Return
      {| result_message :=
           the_t (resolve option)
             ("errors.too_small.date." ++ bound_kind issue)
             (spread (Rich.path_fragment (resolve option) issue)
                [ ("minimum", new_Date (Number (Zod.minimum issue)));
                  ("count", VUndefined);
                  ("ns", ns_val (the_ns (resolve option)));
                  ("defaultValue", VStr (Rich.fallback_message issue)) ]) |}.
Proof.
  intros Hc Ho. rewrite (rich_too_small_branch option issue Hc).
  now rewrite Ho.
Qed.

End BoundSpec.

(* ------------------------------------------------------------------------- *)
(** ** Custom issues *)
(* ------------------------------------------------------------------------- *)

Module CustomSpec.
Import Js Zod ObjFacts MapSpec.

(** The concrete environment of the examples. *)
#[local] Existing Instance Sample.host.
#[local] Existing Instance Sample.libraries.

(** The two files hold the same [isRecord] and [getKeyAndValues]. *)
Lemma isRecord_same (v : JsVal) : Core.isRecord v = Rich.isRecord v.
Proof. reflexivity. Qed.

Lemma getKeyAndValues_same (param : JsVal) (defaultKey : string) :
  Core.getKeyAndValues param defaultKey = Rich.getKeyAndValues param defaultKey.
Proof. reflexivity. Qed.

(** [getKeyAndValues] on a record without inherited enumerable
    properties: the [key] property when it is a string, the [values]
    property when it is a record. *)
Lemma getKeyAndValues_record
    (ctor : option string) (own : Obj) (defaultKey : string) :
  Rich.getKeyAndValues (VObj ctor own []) defaultKey
  = {| key :=
         match get "key" own with
         | Some (VStr k) => k
         | _ => defaultKey
         end;
       values_of :=
         match get "values" own with
         | Some v => if Rich.isRecord v then v else empty_obj
         | None => empty_obj
         end |}.
Proof.
  unfold Rich.getKeyAndValues; simpl.
  f_equal.
  - destruct (get "key" own) as [[]|]; reflexivity.
  - destruct (get "values" own) as [v|]; simpl; [| reflexivity].
    destruct (Rich.isRecord v); reflexivity.
Qed.

(** C6, as the code has it.  For a custom issue whose [params.i18n] is a
    record, the map renders the record's [key] ([errors.custom] when that
    property is absent or not a string) with the record's [values] spread
    first: [ns], [defaultValue] and the properties of the path fragment are
    defined after them and take precedence over supplied values of the same
    name, and every other supplied value reaches the renderer unchanged. *)
Theorem custom_record_values_spread_first
    {H : Host} {L : Libraries}
    (ctor : option string) (own : Obj)
    (option : option ZodI18nMapOption) (issue : Issue) :
  code issue = "custom" ->
  params_i18n issue = VObj ctor own [] ->
  let r := resolve option in
  let key :=
    match get "key" own with
    | Some (VStr k) => k
    | _ => "errors.custom"
    end in
  let values :=
    match get "values" own with
    | Some v => if Rich.isRecord v then own_enumerable v else []
    | None => []
    end in
  let fragment := Rich.path_fragment r issue in
  let params :=
    spread fragment
      (set "defaultValue" (VStr (Rich.fallback_message issue))
         (set "ns" (ns_val (the_ns r)) (spread values []))) in
  Rich.makeZodI18nMap option issue
    = Return {| result_message := the_t r key params |}
  /\ get "ns" params = Some (ns_val (the_ns r))
  /\ get "defaultValue" params = Some (VStr (Rich.fallback_message issue))
  /\ (forall k v, get k fragment = Some v -> get k params = Some v)
  /\ (forall k, k <> "ns" -> k <> "defaultValue" ->
                get k fragment = None ->
                get k params = get k (spread values [])).
Proof.
  intros Hc Hp r key values fragment params.
  assert (Hfrag := rich_path_fragment_cases issue r).
  fold fragment in Hfrag.
  split; [| split; [| split; [| split]]].
  - rewrite (rich_custom_branch option issue Hc); cbv zeta.
    rewrite Hp, getKeyAndValues_record; simpl.
    fold r fragment. subst params values. do 3 f_equal.
    destruct (get "values" own) as [v|]; [| reflexivity].
    destruct (Rich.isRecord v); reflexivity.
  - subst params.
    rewrite get_under_fragment by (assumption || discriminate).
    rewrite get_set_other by discriminate. apply get_set_same.
  - subst params.
    rewrite get_under_fragment by (assumption || discriminate).
    apply get_set_same.
  - intros k v Hk. subst params.
    destruct Hfrag as [E | (c & p & E)]; rewrite E in *.
    + discriminate.
    + rewrite get_spread_pair. simpl in Hk.
      destruct (String.eqb k "path") eqn:Ep.
      * apply String.eqb_eq in Ep; subst k. exact Hk.
      * destruct (String.eqb k "context"); [exact Hk | discriminate].
  - intros k Hns Hdv Hk. subst params.
    rewrite get_spread_absent by assumption.
    now rewrite !get_set_other by assumption.
Qed.

Lemma custom_record_values_spread_first_witness :
  Rich.makeZodI18nMap (Sample.with_t (Sample.show_param "x"))
    (Sample.custom_with Sample.my_key_x)
  = Return {| result_message := "1" |}.
Proof.
  apply (custom_record_values_spread_first
           None
           [ ("key", VStr "my.key");
             ("values", VObj None [("x", VNum (number_of_Z 1))] []) ]
           (Sample.with_t (Sample.show_param "x"))
           (Sample.custom_with Sample.my_key_x)
           eq_refl eq_refl).
Defined.

(** C6, as it is worded, fails: with [{ key: "my.key", values:
    { defaultValue: "mine" } }] the renderer is not called with the
    supplied [defaultValue]; it gets the fallback message of the issue. *)
Lemma custom_values_do_not_override_defaults :
  ~ (exists params : Obj,
       Rich.makeZodI18nMap None (Sample.custom_with Sample.my_key_default)
       = Return {| result_message := i18next_t "my.key" params |}
       /\ get "defaultValue" params = Some (VStr "mine")).
Proof.
  intros (params & Hrun & Hdv).
  simpl in Hrun. rewrite Hdv in Hrun. discriminate Hrun.
Qed.

(** The same branch in [packages/core]. *)
Lemma core_custom_branch_on_record
    {H : Host} {L : Libraries}
    (ctor : option string) (own : Obj)
    (option : option ZodI18nMapOption) (issue : Issue) :
  code issue = "custom" ->
  params_i18n issue = VObj ctor own [] ->
  let r := resolve option in
  Core.makeZodI18nMap option issue
  = {| result_message :=
         the_t r
           match get "key" own with
           | Some (VStr k) => k
           | _ => "errors.custom"
           end
           (spread (Core.path_fragment r issue)
              (set "defaultValue"
                 (VStr (or_else (message issue) "Invalid value"))
                 (set "ns" (ns_val (the_ns r))
                    (spread
                       match get "values" own with
                       | Some v => if Rich.isRecord v then own_enumerable v
                                   else []
                       | None => []
                       end [])))) |}.
Proof.
  intros Hc Hp r.
  rewrite (core_custom_branch option issue Hc); cbv zeta.
  rewrite getKeyAndValues_same.
  rewrite Hp, getKeyAndValues_record; simpl.
  fold r. do 5 f_equal.
  destruct (get "values" own) as [v|]; [| reflexivity].
  destruct (Rich.isRecord v); reflexivity.
Qed.

(** C10. For a custom issue whose [params.i18n] is a string, that string
    is the message key and no extra value is passed; when [params.i18n] is
    neither a string nor a record, the key is [errors.custom] and again no
    extra value is passed.  Both files agree. *)
Theorem custom_string_or_non_record_i18n
    {H : Host} {L : Libraries}
    (option : option ZodI18nMapOption) (issue : Issue) :
  code issue = "custom" ->
  let r := resolve option in
  let params_core :=
    spread (Core.path_fragment r issue)
      [ ("ns", ns_val (the_ns r));
        ("defaultValue", VStr (or_else (message issue) "Invalid value")) ] in
  let params_rich :=
    spread (Rich.path_fragment r issue)
      [ ("ns", ns_val (the_ns r));
        ("defaultValue", VStr (Rich.fallback_message issue)) ] in
  (forall s : string,
      params_i18n issue = VStr s ->
      Core.getKeyAndValues (params_i18n issue) "errors.custom"
        = {| key := s; values_of := empty_obj |}
      /\ Rich.getKeyAndValues (params_i18n issue) "errors.custom"
        = {| key := s; values_of := empty_obj |}
      /\ Core.makeZodI18nMap option issue
        = {| result_message := the_t r s params_core |}
      /\ Rich.makeZodI18nMap option issue
        = Return {| result_message := the_t r s params_rich |})
  /\
  (typeof (params_i18n issue) <> "string" ->
   Rich.isRecord (params_i18n issue) = false ->
      Core.getKeyAndValues (params_i18n issue) "errors.custom"
        = {| key := "errors.custom"; values_of := empty_obj |}
      /\ Rich.getKeyAndValues (params_i18n issue) "errors.custom"
        = {| key := "errors.custom"; values_of := empty_obj |}
      /\ Core.makeZodI18nMap option issue
        = {| result_message := the_t r "errors.custom" params_core |}
      /\ Rich.makeZodI18nMap option issue
        = Return {| result_message := the_t r "errors.custom" params_rich |}).
Proof.
  intros Hc r params_core params_rich.
  split.
  - intros s Hs.
    rewrite (core_custom_branch option issue Hc),
            (rich_custom_branch option issue Hc); cbv zeta.
    rewrite Hs. repeat split; reflexivity.
  - intros Hty Hrec.
    assert (Hkv : Rich.getKeyAndValues (params_i18n issue) "errors.custom"
                  = {| key := "errors.custom"; values_of := empty_obj |}).
    { unfold Rich.getKeyAndValues. rewrite Hrec.
      destruct (params_i18n issue); try reflexivity.
      now elim Hty. }
    rewrite (core_custom_branch option issue Hc),
            (rich_custom_branch option issue Hc); cbv zeta.
    rewrite getKeyAndValues_same, Hkv.
    repeat split; reflexivity.
Qed.

Lemma custom_string_or_non_record_i18n_witness :
  Rich.makeZodI18nMap (Sample.with_t Sample.show_key)
    (Sample.custom_with (VStr "form.password_mismatch"))
  = Return {| result_message := "form.password_mismatch" |}
  /\ Core.makeZodI18nMap (Sample.with_t Sample.show_key)
       (Sample.custom_with (VNum (number_of_Z 7)))
     = {| result_message := "errors.custom" |}.
Proof.
  split.
  - apply (proj1 (custom_string_or_non_record_i18n
                    (Sample.with_t Sample.show_key)
                    (Sample.custom_with (VStr "form.password_mismatch"))
                    eq_refl)
                 "form.password_mismatch" eq_refl).
  - apply (proj2 (custom_string_or_non_record_i18n
                    (Sample.with_t Sample.show_key)
                    (Sample.custom_with (VNum (number_of_Z 7)))
                    eq_refl)).
    + discriminate.
    + reflexivity.
Defined.

End CustomSpec.

(* ------------------------------------------------------------------------- *)
(** ** Where the two files part: types, paths, formats and values *)
(* ------------------------------------------------------------------------- *)

Module VariantSpec.
Import Js Zod ObjFacts MapSpec.

(** The concrete environment of the examples. *)
#[local] Existing Instance Sample.host.
#[local] Existing Instance Sample.libraries.

(** *** [invalid_type] *)

(** The map over zod's locale looks at the input: [undefined] gives
    [errors.invalid_type_received_undefined] whatever else the issue
    holds. *)
Lemma rich_invalid_type_undefined_input
    {H : Host} {L : Libraries}
    (option : option ZodI18nMapOption) (issue : Issue) :
  code issue = "invalid_type" ->
  input issue = VUndefined ->
  let r := resolve option in
  Rich.makeZodI18nMap option issue
  = Return
      {| result_message :=
           the_t r "errors.invalid_type_received_undefined"
             (spread (Rich.path_fragment r issue)
                [ ("ns", ns_val (the_ns r));
                  ("defaultValue", VStr (Rich.fallback_message issue)) ]) |}.
Proof.
  intros Hc Hi r. unfold Rich.makeZodI18nMap. now rewrite Hc, Hi.
Qed.

(** The map of [packages/core] looks at [issue.expected] instead, and never
    at the input. *)
Lemma core_invalid_type_by_expected
    {H : Host} {L : Libraries}
    (option : option ZodI18nMapOption) (issue : Issue) :
  code issue = "invalid_type" ->
  let r := resolve option in
  let t := the_t r in
  let ns := ns_val (the_ns r) in
  let message := or_else (message issue) "Invalid value" in
  let base := [ ("ns", ns); ("defaultValue", VStr message) ] in
  Core.makeZodI18nMap option issue
  = {| result_message :=
         if is_str (expected issue) "undefined" then
           t "errors.invalid_type_received_undefined"
             (spread (Core.path_fragment r issue) base)
         else if is_str (expected issue) "null" then
           t "errors.invalid_type_received_null"
             (spread (Core.path_fragment r issue) base)
         else
           t "errors.invalid_type"
             (spread (Core.path_fragment r issue)
                [ ("expected",
                   VStr (t ("types." ++ to_string (expected issue))
                           [ ("defaultValue", expected issue); ("ns", ns) ]));
                  ("received",
                   VStr (t ("types." ++ to_string (received issue))
                           [ ("defaultValue", received issue); ("ns", ns) ]));
                  ("ns", ns);
                  ("defaultValue", VStr message) ]) |}.
Proof.
  intros Hc r t ns message base. unfold Core.makeZodI18nMap. now rewrite Hc.
Qed.

(** C1, in [packages/core].  The issue of a missing string,
    [{ code: "invalid_type", expected: "string", input: undefined }], is
    rendered with the key [errors.invalid_type]; the map over zod's locale
    renders it with [errors.invalid_type_received_undefined]. *)
Theorem core_undefined_input_renders_invalid_type :
  code Sample.missing_string = "invalid_type"
  /\ input Sample.missing_string = VUndefined
  /\ (forall (H : Host) (L : Libraries) (option : option ZodI18nMapOption),
        let t := the_t (resolve option) in
        let ns := ns_val (the_ns (resolve option)) in
        Core.makeZodI18nMap option Sample.missing_string
        = {| result_message :=
               t "errors.invalid_type"
                 [ ("expected",
                    VStr (t "types.string"
                            [ ("defaultValue", VStr "string"); ("ns", ns) ]));
                   ("received",
                    VStr (t "types.undefined"
                            [ ("defaultValue", VUndefined); ("ns", ns) ]));
                   ("ns", ns);
                   ("defaultValue", VStr "Invalid value") ] |})
  /\ Core.makeZodI18nMap (Sample.with_t Sample.show_key) Sample.missing_string
     = {| result_message := "errors.invalid_type" |}
  /\ Rich.makeZodI18nMap (Sample.with_t Sample.show_key) Sample.missing_string
     = Return {| result_message := "errors.invalid_type_received_undefined" |}.
Proof.
  repeat split.
Qed.

(** *** The path fragment *)

(** Path handling is off exactly when the option says [handlePath: false]. *)
Lemma handlePath_disabled_iff
    {L : Libraries} (option : option ZodI18nMapOption) :
  the_handlePath (resolve option) = None
  <-> exists o, option = Some o /\ handlePath o = Some HandlePathFalse.
Proof.
  unfold resolve. split.
  - destruct option as [o |]; [| discriminate].
    destruct (handlePath o) as [[| h] |] eqn:E; try discriminate.
    intros _. now exists o.
  - intros (o & -> & ->). reflexivity.
Qed.

(** Without options the context tag is [with_path], the path namespace is
    [zod] and there is no key prefix. *)
Lemma handlePath_default {L : Libraries} :
  the_handlePath (resolve None)
  = Some {| r_context := "with_path";
            r_ns := NsName "zod";
            r_keyPrefix := None |}.
Proof. reflexivity. Qed.

(** The map over zod's locale passes a fragment exactly when path handling
    is on and the path has a segment; the fragment is then the context tag
    and the rendered path. *)
Lemma rich_path_fragment_spec
    {H : Host} {L : Libraries} (r : Resolved) (issue : Issue) :
  (forall hp p,
      the_handlePath r = Some hp ->
      path issue = Some p ->
      p <> [] ->
      let joined := array_join "." (map key_val p) in
      Rich.path_fragment r issue
      = [ ("context", VStr (r_context hp));
          ("path",
           VStr (the_t r
                   (join "." (filter_Boolean [r_keyPrefix hp; Some joined]))
                   [ ("ns", ns_val (r_ns hp));
                     ("defaultValue", VStr joined) ])) ])
  /\
  (the_handlePath r = None \/ path issue = None \/ path issue = Some [] ->
   Rich.path_fragment r issue = [])
  /\
  (Rich.path_fragment r issue <> []
   <-> the_handlePath r <> None
       /\ exists seg segs, path issue = Some (seg :: segs)).
Proof.
  unfold Rich.path_fragment. split; [| split; [| split]].
  - intros hp p -> -> Hp. destruct p; [now elim Hp | reflexivity].
  - intros [-> | [-> | ->]]; try reflexivity.
    now destruct (path issue) as [[|] |].
  - intros Hx. split.
    + destruct (the_handlePath r); [discriminate |].
      destruct (path issue) as [[|] |]; now elim Hx.
    + destruct (path issue) as [[| seg segs] |]; try now elim Hx.
      now exists seg, segs.
  - intros (Hh & seg & segs & ->).
    destruct (the_handlePath r); [discriminate | now elim Hh].
Qed.

(** The map of [packages/core] tests [issue.path] for truthiness only: any
    path that is present gives a fragment, the empty one too. *)
Lemma core_path_fragment_present
    {H : Host} {L : Libraries} (r : Resolved) (issue : Issue) hp p :
  the_handlePath r = Some hp ->
  path issue = Some p ->
  let joined := array_join "." (map key_val p) in
  Core.path_fragment r issue
  = [ ("context", VStr (r_context hp));
      ("path",
       VStr (the_t r
               (join "." (filter_Boolean [r_keyPrefix hp; Some joined]))
               [ ("ns", ns_val (r_ns hp));
                 ("defaultValue", VStr joined) ])) ].
Proof.
  intros Hh Hp. unfold Core.path_fragment. now rewrite Hh, Hp.
Qed.

(** With the default options, an issue under [user.email] gets the context
    [with_path] and the rendering of the key [user.email], whose default is
    the dotted path itself. *)
Lemma rich_nested_path_fragment {H : Host} {L : Libraries} :
  Rich.path_fragment (resolve None) Sample.nested_refinement
  = [ ("context", VStr "with_path");
      ("path",
       VStr (i18next_t "user.email"
               [ ("ns", VStr "zod");
                 ("defaultValue", VStr "user.email") ])) ].
Proof. reflexivity. Qed.

(** C2, in [packages/core].  For an issue whose path is the empty array,
    with path handling on, the fragment is not empty: it holds the context
    tag and the rendering of the empty key, and the renderer is called with
    them.  The map over zod's locale passes the empty fragment. *)
Theorem core_empty_path_gives_fragment :
  path Sample.root_refinement = Some []
  /\ (forall (H : Host) (L : Libraries),
        Core.path_fragment (resolve None) Sample.root_refinement
        = [ ("context", VStr "with_path");
            ("path",
             VStr (i18next_t EmptyString
                     [ ("ns", VStr "zod");
                       ("defaultValue", VStr EmptyString) ])) ])
  /\ Core.makeZodI18nMap (Sample.with_t (Sample.show_param "context"))
       Sample.root_refinement
     = {| result_message := "with_path" |}
  /\ Rich.path_fragment (resolve None) Sample.root_refinement = []
  /\ Rich.makeZodI18nMap (Sample.with_t (Sample.show_param "context"))
       Sample.root_refinement
     = Return {| result_message := "(absent)" |}.
Proof.
  repeat split.
Qed.

(** *** [invalid_format] *)

(** The map over zod's locale passes the issue's prefix and suffix. *)
Lemma rich_starts_with_ends_with
    {H : Host} {L : Libraries}
    (option : option ZodI18nMapOption) (issue : Issue) :
  code issue = "invalid_format" ->
  let r := resolve option in
  let rest :=
    [ ("ns", ns_val (the_ns r));
      ("defaultValue", VStr (Rich.fallback_message issue)) ] in
  (format issue = "starts_with" ->
   Rich.makeZodI18nMap option issue
   = Return
       {| result_message :=
            the_t r "errors.invalid_string.startsWith"
              (spread (Rich.path_fragment r issue)
                 (("startsWith", VStr (prefix issue)) :: rest)) |})
  /\
  (format issue = "ends_with" ->
   Rich.makeZodI18nMap option issue
   = Return
       {| result_message :=
            the_t r "errors.invalid_string.endsWith"
              (spread (Rich.path_fragment r issue)
                 (("endsWith", VStr (suffix issue)) :: rest)) |}).
Proof.
  intros Hc r rest.
  split; intros Hf; unfold Rich.makeZodI18nMap; now rewrite Hc, Hf.
Qed.

(** The map of [packages/core] passes the format tag itself. *)
Lemma core_starts_with_ends_with
    {H : Host} {L : Libraries}
    (option : option ZodI18nMapOption) (issue : Issue) :
  code issue = "invalid_format" ->
  let r := resolve option in
  let rest :=
    [ ("ns", ns_val (the_ns r));
      ("defaultValue", VStr (or_else (message issue) "Invalid value")) ] in
  (format issue = "starts_with" ->
   Core.makeZodI18nMap option issue
   = {| result_message :=
          the_t r "errors.invalid_string.startsWith"
            (spread (Core.path_fragment r issue)
               (("startsWith", VStr "starts_with") :: rest)) |})
  /\
  (format issue = "ends_with" ->
   Core.makeZodI18nMap option issue
   = {| result_message :=
          the_t r "errors.invalid_string.endsWith"
            (spread (Core.path_fragment r issue)
               (("endsWith", VStr "ends_with") :: rest)) |}).
Proof.
  intros Hc r rest.
  split; intros Hf; unfold Core.makeZodI18nMap; now rewrite Hc, Hf.
Qed.

(** C3, in [packages/core].  For a [starts_with] issue with prefix ["abc"]
    the [startsWith] parameter is the string ["starts_with"], and for an
    [ends_with] issue with suffix ["xyz"] the [endsWith] parameter is
    ["ends_with"]; the keys are the ones of the claim.  The map over zod's
    locale passes ["abc"] and ["xyz"]. *)
Theorem core_starts_with_passes_format_tag :
  prefix Sample.bad_prefix = "abc"
  /\ suffix Sample.bad_suffix = "xyz"
  /\ (forall (H : Host) (L : Libraries) (option : option ZodI18nMapOption),
        let r := resolve option in
        let rest :=
          [ ("ns", ns_val (the_ns r));
            ("defaultValue", VStr "Invalid value") ] in
        Core.makeZodI18nMap option Sample.bad_prefix
        = {| result_message :=
               the_t r "errors.invalid_string.startsWith"
                 (("startsWith", VStr "starts_with") :: rest) |}
        /\ Core.makeZodI18nMap option Sample.bad_suffix
           = {| result_message :=
                  the_t r "errors.invalid_string.endsWith"
                    (("endsWith", VStr "ends_with") :: rest) |})
  /\ Core.makeZodI18nMap (Sample.with_t (Sample.show_param "startsWith"))
       Sample.bad_prefix
     = {| result_message := "starts_with" |}
  /\ Core.makeZodI18nMap (Sample.with_t (Sample.show_param "endsWith"))
       Sample.bad_suffix
     = {| result_message := "ends_with" |}
  /\ Rich.makeZodI18nMap (Sample.with_t (Sample.show_param "startsWith"))
       Sample.bad_prefix
     = Return {| result_message := "abc" |}
  /\ Rich.makeZodI18nMap (Sample.with_t (Sample.show_param "endsWith"))
       Sample.bad_suffix
     = Return {| result_message := "xyz" |}.
Proof.
  repeat split.
Qed.

(** *** [invalid_value] *)

(** The map over zod's locale tells a literal from an enum. *)
Lemma rich_invalid_value_literal_enum
    {H : Host} {L : Libraries}
    (option : option ZodI18nMapOption) (issue : Issue) :
  code issue = "invalid_value" ->
  let r := resolve option in
  let rest :=
    [ ("ns", ns_val (the_ns r));
      ("defaultValue", VStr (Rich.fallback_message issue)) ] in
  (inst issue = ZodLiteral ->
   Rich.makeZodI18nMap option issue
   = Return
       {| result_message :=
            the_t r "errors.invalid_literal"
              (spread (Rich.path_fragment r issue)
                 (("expected", VStr (Rich.joinValues (values issue) " | "))
                  :: rest)) |})
  /\
  (inst issue = ZodEnum ->
   Rich.makeZodI18nMap option issue
   = Return
       {| result_message :=
            the_t r "errors.invalid_enum_value"
              (spread (Rich.path_fragment r issue)
                 (("options", VStr (Rich.joinValues (values issue) " | "))
                  :: ("received", input issue) :: rest)) |}).
Proof.
  intros Hc r rest.
  split; intros Hi; unfold Rich.makeZodI18nMap; now rewrite Hc, Hi.
Qed.

(** [joinValues] quotes the strings and joins with the separator. *)
Lemma rich_joinValues_strings {H : Host} (a b : string) :
  Rich.joinValues [VStr a; VStr b] " | "
  = ("'" ++ a ++ "'") ++ " | " ++ ("'" ++ b ++ "'").
Proof. reflexivity. Qed.

(** The map of [packages/core] has one rendering for every
    [invalid_value] issue, whatever its schema: the key
    [errors.invalid_literal] and the JSON form of [issue.expected]. *)
Lemma core_invalid_value_one_rendering
    {H : Host} {L : Libraries}
    (option : option ZodI18nMapOption) (issue : Issue) :
  code issue = "invalid_value" ->
  let r := resolve option in
  Core.makeZodI18nMap option issue
  = {| result_message :=
         the_t r "errors.invalid_literal"
           (spread (Core.path_fragment r issue)
              [ ("expected",
                 JSON_stringify (expected issue) Core.jsonStringifyReplacer);
                ("ns", ns_val (the_ns r));
                ("defaultValue",
                 VStr (or_else (message issue) "Invalid value")) ]) |}.
Proof.
  intros Hc r. unfold Core.makeZodI18nMap. now rewrite Hc.
Qed.

(** C4, in [packages/core].  An enum issue with values ["a"] and ["b"] and
    input ["c"] is rendered with the key [errors.invalid_literal], without
    [options] and [received]; and for a literal issue with the same values
    the [expected] parameter is the JSON form of [issue.expected], which
    the issue does not have, not the joined quoted values.  The map over
    zod's locale renders [errors.invalid_enum_value] and ['a' | 'b']. *)
Theorem core_invalid_value_ignores_schema_kind :
  inst Sample.bad_enum = ZodEnum
  /\ inst Sample.bad_literal = ZodLiteral
  /\ (forall (H : Host) (L : Libraries) (option : option ZodI18nMapOption),
        let r := resolve option in
        let params :=
          [ ("expected", JSON_stringify VUndefined Core.jsonStringifyReplacer);
            ("ns", ns_val (the_ns r));
            ("defaultValue", VStr "Invalid value") ] in
        Core.makeZodI18nMap option Sample.bad_enum
        = {| result_message := the_t r "errors.invalid_literal" params |}
        /\ Core.makeZodI18nMap option Sample.bad_literal
           = {| result_message := the_t r "errors.invalid_literal" params |})
  /\ Core.makeZodI18nMap (Sample.with_t Sample.show_key) Sample.bad_enum
     = {| result_message := "errors.invalid_literal" |}
  /\ Core.makeZodI18nMap (Sample.with_t (Sample.show_param "options"))
       Sample.bad_enum
     = {| result_message := "(absent)" |}
  /\ Core.makeZodI18nMap (Sample.with_t (Sample.show_param "expected"))
       Sample.bad_literal
     = {| result_message := "undefined" |}
  /\ Rich.makeZodI18nMap (Sample.with_t Sample.show_key) Sample.bad_enum
     = Return {| result_message := "errors.invalid_enum_value" |}
  /\ Rich.makeZodI18nMap (Sample.with_t (Sample.show_param "options"))
       Sample.bad_enum
     = Return {| result_message := "'a' | 'b'" |}
  /\ Rich.makeZodI18nMap (Sample.with_t (Sample.show_param "expected"))
       Sample.bad_literal
     = Return {| result_message := "'a' | 'b'" |}.
Proof.
  repeat split.
Qed.

End VariantSpec.

(* ------------------------------------------------------------------------- *)
(** ** Joining values *)
(* ------------------------------------------------------------------------- *)

Module JoinSpec.
Import Js Zod.

#[local] Existing Instance Sample.host.
#[local] Existing Instance Sample.libraries.

Lemma joinValues_core_rich
    {H : Host} (array : list JsVal) (separator : string) :
  Core.joinValues array separator = Rich.joinValues array separator.
Proof.
  unfold Core.joinValues, Rich.joinValues, array_join.
  rewrite !map_map. f_equal.
  apply map_ext. intros v. destruct v; reflexivity.
Qed.

(** The case [joinValues] has for bigints in the map over zod's locale
    changes nothing: [join] would print the bigint the same way.  The two
    files' [joinValues] agree on every array. *)
Theorem joinValues_same_in_both_files
    {H : Host} (array : list JsVal) (separator : string) :
  Core.joinValues array separator = Rich.joinValues array separator.
Proof.
  unfold Core.joinValues, Rich.joinValues, array_join.
  rewrite !map_map. f_equal.
  apply map_ext. intros v. destruct v; reflexivity.
Qed.

Lemma joinValues_map_shown
    {H : Host} (array : list JsVal) (separator : string) :
  Rich.joinValues array separator
  = join separator (map MoreSamples.shown array).
Proof.
  unfold Rich.joinValues, array_join.
  rewrite map_map. f_equal.
  apply map_ext. intros v. destruct v; reflexivity.
Qed.

(** [joinValues] joins what each value shows: strings in single quotes,
    nothing for [undefined] and [null] (so a [null] literal leaves an empty
    place), the string form for the rest.  The empty array gives the empty
    string. *)
Theorem joinValues_shows_each_value
    {H : Host} (array : list JsVal) (separator : string) :
  Rich.joinValues array separator
  = join separator (map MoreSamples.shown array)
  /\ Rich.joinValues [] separator = EmptyString
  /\ Rich.joinValues [VNull; VStr "a"] " | " = " | 'a'".
Proof.
  split; [apply joinValues_map_shown | split; reflexivity].
Qed.

(** On strings only, [joinValues] is the separator-joined list of the quoted
    strings. *)
Lemma joinValues_strings
    {H : Host} (ss : list string) (separator : string) :
  Rich.joinValues (map VStr ss) separator
  = join separator (map (fun s => "'" ++ s ++ "'") ss).
Proof.
  rewrite joinValues_map_shown, map_map. reflexivity.
Qed.

(** The dotted form of a path made of names. *)
Lemma path_of_names_joined {H : Host} (names : list string) :
  array_join "." (map key_val (map PKString names)) = join "." names.
Proof.
  unfold array_join. rewrite !map_map. f_equal.
  rewrite <- (map_id names) at 2. apply map_ext. reflexivity.
Qed.

End JoinSpec.

(* ------------------------------------------------------------------------- *)
(** ** More on the helpers and on [getKeyAndValues] *)
(* ------------------------------------------------------------------------- *)

Module HelpersMore.
Import Js Helpers.

(** A zod error without issues makes both helpers throw a [TypeError]: the
    read of [message] on the missing first issue.  The catching helper then
    does not throw the zod error it caught again. *)
Theorem helpers_throw_TypeError_without_issues
    (World : Type) (callback : Callback World) (w w' : World) (e : ZodError) :
  issues e = [] ->
  callback w = (Throw (ThrownZodError e), w') ->
  getErrorMessage (Failure e) = Throw (ThrownNative TypeError)
  /\ getErrorMessageFromZodError World callback w
     = (Throw (ThrownNative TypeError), w').
Proof.
  intros He Hcb.
  unfold getErrorMessage, getErrorMessageFromZodError, first_message; simpl.
  now rewrite Hcb, He.
Qed.

Lemma helpers_throw_TypeError_without_issues_witness :
  getErrorMessage (Failure {| issues := [] |}) = Throw (ThrownNative TypeError)
  /\ getErrorMessageFromZodError nat MoreSamples.throws_empty_zod 0
     = (Throw (ThrownNative TypeError), 1).
Proof.
  apply (helpers_throw_TypeError_without_issues
           nat MoreSamples.throws_empty_zod 0 1 {| issues := [] |}
           eq_refl eq_refl).
Defined.

(** Catching a thrown zod error gives what [getErrorMessage] gives on the
    failed result that carries the same error: the same message, or the
    same throw. *)
Theorem helpers_agree_on_zod_error
    (World : Type) (callback : Callback World) (w w' : World) (e : ZodError) :
  callback w = (Throw (ThrownZodError e), w') ->
  getErrorMessageFromZodError World callback w
  = (match getErrorMessage (Failure e) with
     | Return m => Return (Some m)
     | Throw x => Throw x
     end, w').
Proof.
  intros Hcb. unfold getErrorMessageFromZodError, getErrorMessage; simpl.
  rewrite Hcb. destruct (first_message e); reflexivity.
Qed.

Lemma helpers_agree_on_zod_error_witness :
  getErrorMessageFromZodError nat Sample.throws_zod 0
  = (Return (Some "Required"), 1).
Proof.
  apply (helpers_agree_on_zod_error nat Sample.throws_zod 0 1
           {| issues := [ {| message := "Required" |} ] |} eq_refl).
Defined.

(** The catching helper runs the callback once and does nothing else to the
    state: whatever the outcome, the state is the one the callback left. *)
Theorem getErrorMessageFromZodError_keeps_callback_state
    (World : Type) (callback : Callback World) (w : World) :
  snd (getErrorMessageFromZodError World callback w) = snd (callback w).
Proof.
  unfold getErrorMessageFromZodError.
  destruct (callback w) as [[u | [e | n | v]] w']; try reflexivity.
  destruct (first_message e); reflexivity.
Qed.

(** The catching helper returns a message only for a thrown zod error: a
    returned string means the callback threw a [$ZodError] whose first issue
    has that message. *)
Theorem getErrorMessageFromZodError_message_origin
    (World : Type) (callback : Callback World) (w w' : World) (m : string) :
  getErrorMessageFromZodError World callback w = (Return (Some m), w') ->
  exists e i rest,
    callback w = (Throw (ThrownZodError e), w')
    /\ issues e = i :: rest
    /\ message i = m.
Proof.
  unfold getErrorMessageFromZodError, first_message.
  destruct (callback w) as [[u | [e | n | v]] w0]; try discriminate.
  destruct (issues e) as [| i rest] eqn:Hi; [discriminate |].
  intros Heq. injection Heq as Hm Hw. subst.
  now exists e, i, rest.
Qed.

Lemma getErrorMessageFromZodError_message_origin_witness :
  exists e i rest,
    Sample.throws_zod 0 = (Throw (ThrownZodError e), 1)
    /\ issues e = i :: rest
    /\ message i = "Required".
Proof.
  apply (getErrorMessageFromZodError_message_origin
           nat Sample.throws_zod 0 1 "Required" eq_refl).
Defined.

End HelpersMore.

Module KeySpec.
Import Js Zod.

(** Whatever [params.i18n] is, the values [getKeyAndValues] returns are a
    record: the [values] property of the parameter when that is one, the
    empty object otherwise.  The spread of them can always be taken. *)
Theorem getKeyAndValues_values_is_record
    (param : JsVal) (defaultKey : string) :
  Rich.isRecord (values_of (Rich.getKeyAndValues param defaultKey)) = true
  /\ (values_of (Rich.getKeyAndValues param defaultKey) = empty_obj
      \/ values_of (Rich.getKeyAndValues param defaultKey)
         = get_property "values" param).
Proof.
  unfold Rich.getKeyAndValues.
  destruct param as [| | b | n | s | z | tv | elems | ctor own inh];
    simpl; auto.
  - destruct (match get "values" (indexed 0 elems) with
              | Some _ => true | None => false end
              && Rich.isRecord
                   match get "values" (indexed 0 elems) with
                   | Some x => x | None => VUndefined end) eqn:E;
      simpl; auto.
    apply andb_true_iff in E. destruct E as [_ E]. auto.
  - destruct inh; simpl; auto.
    destruct (has_property "values" (VObj ctor own [])
              && Rich.isRecord (get_property "values" (VObj ctor own [])))
      eqn:E; simpl in E |- *; rewrite E; simpl; auto.
    apply andb_true_iff in E. destruct E as [_ E]. auto.
Qed.

(** The key [getKeyAndValues] returns is never made up: it is the default
    key, the parameter itself when that is a string, or the string held in
    the parameter's [key] property. *)
Theorem getKeyAndValues_key_origin (param : JsVal) (defaultKey : string) :
  let k := key (Rich.getKeyAndValues param defaultKey) in
  k = defaultKey \/ param = VStr k \/ get_property "key" param = VStr k.
Proof.
  unfold Rich.getKeyAndValues.
  destruct param as [| | b | n | s | z | tv | elems | ctor own inh];
    simpl; auto.
  - destruct (get "key" (indexed 0 elems)) as [[]|]; simpl; auto.
  - destruct inh; simpl; auto.
    destruct (get "key" own) as [[]|]; simpl; auto.
Qed.

(** [getReceivedDataType] refines [typeof]: it agrees with it on
    everything but numbers and objects; a number is [NaN], [number] (an
    integer) or [float]; [null] and arrays get their own names instead of
    [object]; a plain object stays [object] and an instance of a class
    takes the name of its constructor. *)
Theorem getReceivedDataType_refines_typeof (data : JsVal) :
  (typeof data <> "number" -> typeof data <> "object" ->
   Rich.getReceivedDataType data = typeof data)
  /\ (forall n, data = VNum n ->
        Rich.getReceivedDataType data
        = if Number_isNaN n then "NaN"
          else if Number_isInteger n then "number" else "float")
  /\ (typeof data = "object" ->
      Rich.getReceivedDataType data
      = match data with
        | VNull => "null"
        | VArr _ => "array"
        | VDate _ => "Date"
        | VObj (Some name) _ _ => name
        | _ => "object"
        end)
  /\ Rich.getReceivedDataType (VNum (S754_finite false 3 (-1))) = "float"
  /\ Rich.getReceivedDataType (VNum (number_of_Z 3)) = "number".
Proof.
  repeat split.
  - destruct data; simpl; intros Hn Ho; try reflexivity;
      try (now elim Hn); now elim Ho.
  - intros n ->. reflexivity.
  - destruct data as [| | b | n | s | z | tv | elems | [name |] own inh];
      simpl; intros Ho; try reflexivity; discriminate.
Qed.

Lemma getReceivedDataType_refines_typeof_witness :
  Rich.getReceivedDataType (VBool true) = "boolean"
  /\ Rich.getReceivedDataType VNull = "null".
Proof.
  split.
  - apply (proj1 (getReceivedDataType_refines_typeof (VBool true)));
      discriminate.
  - exact (proj1 (proj2 (proj2 (getReceivedDataType_refines_typeof VNull)))
             eq_refl).
Defined.

End KeySpec.

(* ------------------------------------------------------------------------- *)
(** ** More on paths and options *)
(* ------------------------------------------------------------------------- *)

Module PathMore.
Import Js Zod ObjFacts MapSpec.

#[local] Existing Instance Sample.host.
#[local] Existing Instance Sample.libraries.

(** The key the path is rendered under.  A key prefix that is missing or
    empty leaves the dotted path alone; a prefix in front of an empty dotted
    path stands alone, without a dot; otherwise the two are joined by a
    dot. *)
Theorem path_key_with_prefix (keyPrefix : option string) (joined : string) :
  join "." (filter_Boolean [keyPrefix; Some joined])
  = match keyPrefix with
    | Some (String c p) =>
        if nonempty joined then String c p ++ "." ++ joined else String c p
    | _ => joined
    end.
Proof.
  destruct keyPrefix as [[| c p] |]; destruct joined as [| d j];
    reflexivity.
Qed.



(** The exported map [zodI18nMap] of either file renders the path of an
    issue under [a.b...] with i18next's [t], key the dotted path, namespace
    [zod], and passes it with the context [with_path]. *)
Theorem zodI18nMap_default_path_fragment
    {H : Host} {L : Libraries} (issue : Issue)
    (name : string) (names : list string) :
  path issue = Some (map PKString (name :: names)) ->
  let dotted := join "." (name :: names) in
  let fragment :=
    [ ("context", VStr "with_path");
      ("path",
       VStr (i18next_t dotted
               [ ("ns", VStr "zod"); ("defaultValue", VStr dotted) ])) ] in
  Rich.path_fragment (resolve None) issue = fragment
  /\ Core.path_fragment (resolve None) issue = fragment
  /\ Rich.zodI18nMap issue = Rich.makeZodI18nMap None issue
  /\ Core.zodI18nMap issue = Core.makeZodI18nMap None issue.
Proof.
  intros Hp dotted fragment.
  assert (Hj : array_join "." (map key_val (map PKString (name :: names)))
               = dotted)
    by apply JoinSpec.path_of_names_joined.
  assert (Hk : join "." (filter_Boolean [None; Some dotted]) = dotted)
    by (now destruct dotted).
  repeat split.
  - unfold Rich.path_fragment. rewrite Hp.
    change (map PKString (name :: names))
      with (PKString name :: map PKString names) at 1.
    cbv iota beta. simpl the_handlePath. cbv iota beta.
    change (PKString name :: map PKString names)
      with (map PKString (name :: names)).
    rewrite Hj. simpl r_keyPrefix. rewrite Hk. reflexivity.
  - unfold Core.path_fragment. rewrite Hp.
    simpl the_handlePath. cbv iota beta.
    rewrite Hj. simpl r_keyPrefix. rewrite Hk. reflexivity.
Qed.

Lemma zodI18nMap_default_path_fragment_witness :
  Rich.path_fragment (resolve None) Sample.nested_refinement
  = [ ("context", VStr "with_path"); ("path", VStr "user.email") ].
Proof.
  exact (proj1 (zodI18nMap_default_path_fragment
                  Sample.nested_refinement "user" ["email"] eq_refl)).
Defined.

(** With [handlePath: false] the map of [packages/core] does not look at
    the path at all: an issue gives the same message under any path. *)
Theorem core_handlePath_false_ignores_path
    {H : Host} {L : Libraries}
    (o : ZodI18nMapOption) (issue : Issue)
    (p : option (list PropertyKey)) :
  handlePath o = Some HandlePathFalse ->
  Core.makeZodI18nMap (Some o) (MoreSamples.with_path p issue)
  = Core.makeZodI18nMap (Some o) issue.
Proof.
  intros Hh.
  assert (Hf : forall i, Core.path_fragment (resolve (Some o)) i = []).
  { intros i. unfold Core.path_fragment, resolve; simpl. rewrite Hh.
    now destruct (path i). }
  unfold Core.makeZodI18nMap. rewrite !Hf. reflexivity.
Qed.

Lemma core_handlePath_false_ignores_path_witness :
  Core.makeZodI18nMap (Some MoreSamples.no_path_options)
    (MoreSamples.with_path (Some [PKString "user"]) Sample.short_string)
  = Core.makeZodI18nMap (Some MoreSamples.no_path_options)
      Sample.short_string.
Proof.
  apply (core_handlePath_false_ignores_path
           MoreSamples.no_path_options Sample.short_string
           (Some [PKString "user"]) eq_refl).
Defined.

(** Where the path is absent or has a segment, the two files build the
    same fragment; they differ on the empty path only. *)
Theorem path_fragments_agree_off_empty_path
    {H : Host} {L : Libraries} (r : Resolved) (issue : Issue) :
  path issue <> Some [] ->
  Core.path_fragment r issue = Rich.path_fragment r issue.
Proof.
  intros Hp. unfold Core.path_fragment, Rich.path_fragment.
  destruct (path issue) as [[| seg segs] |]; try reflexivity.
  now elim Hp.
Qed.

Lemma path_fragments_agree_off_empty_path_witness :
  Core.path_fragment (resolve None) Sample.nested_refinement
  = Rich.path_fragment (resolve None) Sample.nested_refinement.
Proof.
  apply (path_fragments_agree_off_empty_path
           (resolve None) Sample.nested_refinement).
  discriminate.
Defined.

End PathMore.

(* ------------------------------------------------------------------------- *)
(** ** What every rendering carries *)
(* ------------------------------------------------------------------------- *)

Module RenderSpec.
Import Js Zod ObjFacts MapSpec MoreSamples.

#[local] Existing Instance Sample.host.
#[local] Existing Instance Sample.libraries.

(** Parameters spread under the path fragment carry what they held. *)
Lemma carries_under_fragment (frag o : Obj) (ns message : JsVal) :
  frag = [] \/ (exists c p, frag = [("context", c); ("path", p)]) ->
  get "ns" o = Some ns ->
  get "defaultValue" o = Some message ->
  carries (spread frag o) frag ns message.
Proof.
  intros Hfrag Hns Hdv. unfold carries.
  rewrite !get_under_fragment by (assumption || discriminate).
  repeat split; try assumption.
  intros k v Hk.
  destruct Hfrag as [E | (c & p & E)]; rewrite E in *.
  - discriminate.
  - rewrite get_spread_pair. simpl in Hk.
    destruct (String.eqb k "path") eqn:Ep.
    + apply String.eqb_eq in Ep; subst k. exact Hk.
    + destruct (String.eqb k "context"); [exact Hk | discriminate].
Qed.

(** The parameters of a custom rendering hold the namespace and default
    value whatever the supplied values are. *)
Lemma custom_params_base (values : Obj) (ns message : JsVal) :
  get "ns" (set "defaultValue" message (set "ns" ns (spread values [])))
  = Some ns
  /\ get "defaultValue"
       (set "defaultValue" message (set "ns" ns (spread values [])))
     = Some message.
Proof.
  split.
  - rewrite get_set_other by discriminate. apply get_set_same.
  - apply get_set_same.
Qed.

(** Decides the tests of a known code against the cases of the [switch]. *)
Ltac decide_code_tests :=
  repeat match goal with
         | |- context [String.eqb (String ?c ?s) ?b] =>
             let v := eval compute in (String.eqb (String c s) b) in
             match v with
             | true => idtac
             | false => idtac
             end;
             change (String.eqb (String c s) b) with v
         end;
  cbv beta iota zeta.

Ltac close_rendering cases :=
  do 2 eexists; split;
  [ reflexivity
  | first
      [ apply carries_under_fragment; [apply cases | reflexivity | reflexivity]
      | apply carries_under_fragment;
        [apply cases | apply custom_params_base | apply custom_params_base] ] ].


(** Every case of the [switch] in [packages/core] renders. *)
Lemma core_rendering
    {H : Host} {L : Libraries}
    (option : option ZodI18nMapOption) (issue : Issue) :
  In (code issue) rendered_codes ->
  let r := resolve option in
  exists key params,
    Core.makeZodI18nMap option issue
    = {| result_message := the_t r key params |}
    /\ carries params (Core.path_fragment r issue)
         (ns_val (the_ns r))
         (VStr (or_else (message issue) "Invalid value")).
Proof.
  intros Hin r. unfold rendered_codes in Hin. simpl in Hin.
  unfold Core.makeZodI18nMap. fold r.
  repeat (destruct Hin as [Hc | Hin]; [symmetry in Hc; rewrite Hc |]);
    try contradiction; decide_code_tests.
  - destruct (is_str (expected issue) "undefined");
      [| destruct (is_str (expected issue) "null")];
      close_rendering (core_path_fragment_cases issue r).
  - close_rendering (core_path_fragment_cases issue r).
  - close_rendering (core_path_fragment_cases issue r).
  - close_rendering (core_path_fragment_cases issue r).
  - destruct (format issue =? "date");
      [| destruct (format issue =? "starts_with");
         [| destruct (format issue =? "ends_with")]];
      close_rendering (core_path_fragment_cases issue r).
  - close_rendering (core_path_fragment_cases issue r).
  - close_rendering (core_path_fragment_cases issue r).
  - close_rendering (core_path_fragment_cases issue r).
  - close_rendering (core_path_fragment_cases issue r).
Qed.

(** A code without a case leaves the fallback message as it is. *)
Lemma core_no_case
    {H : Host} {L : Libraries}
    (option : option ZodI18nMapOption) (issue : Issue) :
  ~ In (code issue) rendered_codes ->
  Core.makeZodI18nMap option issue
  = {| result_message := or_else (message issue) "Invalid value" |}.
Proof.
  intros Hn. unfold Core.makeZodI18nMap.
  repeat match goal with
         | |- context [String.eqb (code issue) ?c] =>
             let E := fresh "E" in
             destruct (String.eqb (code issue) c) eqn:E;
             [ apply String.eqb_eq in E; exfalso; apply Hn; rewrite E;
               unfold rendered_codes; simpl; tauto | ]
         end.
  reflexivity.
Qed.

Lemma rich_no_case
    {H : Host} {L : Libraries}
    (option : option ZodI18nMapOption) (issue : Issue) :
  ~ In (code issue) rendered_codes ->
  Rich.makeZodI18nMap option issue
  = Return {| result_message := Rich.fallback_message issue |}.
Proof.
  intros Hn. unfold Rich.makeZodI18nMap.
  repeat match goal with
         | |- context [String.eqb (code issue) ?c] =>
             let E := fresh "E" in
             destruct (String.eqb (code issue) c) eqn:E;
             [ apply String.eqb_eq in E; exfalso; apply Hn; rewrite E;
               unfold rendered_codes; simpl; tauto | ]
         end.
  reflexivity.
Qed.


(** [options.map(...)] returns exactly when every option has a literal
    under the discriminator; it then holds the first value of each, in
    order. *)
Lemma map_options_returns_iff
    (d : option string) (opts : list Shape) (vs : list JsVal) :
  Rich.map_options d opts = Return vs <-> Forall2 (first_literal d) opts vs.
Proof.
  revert vs. induction opts as [| o rest IH]; intros vs; simpl.
  - split.
    + intros Heq. injection Heq as <-. constructor.
    + intros Hf. inversion Hf. reflexivity.
  - unfold Rich.option_literal.
    destruct (assoc_shape (or_else d "undefined") o) as [[lits |] |] eqn:Ea.
    + destruct (Rich.map_options d rest) as [ws | e] eqn:Em.
      * split.
        -- intros Heq. injection Heq as <-. constructor.
           ++ now exists lits.
           ++ now apply IH.
        -- intros Hf. inversion Hf as [| o' v' rest' vs' Hv Hrest]; subst.
           destruct Hv as (lits' & Hl & ->).
           rewrite Ea in Hl. injection Hl as <-.
           apply IH in Hrest. now injection Hrest as <-.
      * split; [discriminate |].
        intros Hf. inversion Hf as [| o' v' rest' vs' Hv Hrest]; subst.
        apply IH in Hrest. discriminate.
    + split; [discriminate |].
      intros Hf. inversion Hf as [| o' v' rest' vs' Hv Hrest]; subst.
      destruct Hv as (lits' & Hl & _). rewrite Ea in Hl. discriminate.
    + split; [discriminate |].
      intros Hf. inversion Hf as [| o' v' rest' vs' Hv Hrest]; subst.
      destruct Hv as (lits' & Hl & _). rewrite Ea in Hl. discriminate.
Qed.

(** The default renderer of the examples falls back. *)
Lemma sample_t_falls_back : falls_back (the_t (resolve None)).
Proof.
  intros k params s Hs. simpl. now rewrite Hs.
Qed.

(** In [packages/core], every issue whose code has a case is rendered, and
    the parameters of the rendering always hold the namespace under [ns],
    the fallback message under [defaultValue], and the properties of the
    path fragment: nothing an issue carries can displace them. *)
Theorem core_renderings_carry_defaults
    {H : Host} {L : Libraries}
    (option : option ZodI18nMapOption) (issue : Issue) :
  In (code issue) rendered_codes ->
  let r := resolve option in
  exists key params,
    Core.makeZodI18nMap option issue
    = {| result_message := the_t r key params |}
    /\ carries params (Core.path_fragment r issue)
         (ns_val (the_ns r))
         (VStr (or_else (message issue) "Invalid value")).
Proof. apply core_rendering. Qed.

Lemma core_renderings_carry_defaults_witness :
  exists key params,
    Core.makeZodI18nMap None (Sample.custom_with Sample.my_key_default)
    = {| result_message := i18next_t key params |}
    /\ carries params
         (Core.path_fragment (resolve None)
            (Sample.custom_with Sample.my_key_default))
         (VStr "zod") (VStr "Invalid value").
Proof.
  apply (core_renderings_carry_defaults
           None (Sample.custom_with Sample.my_key_default)).
  unfold rendered_codes; simpl; tauto.
Defined.

(** With a renderer that has no translation and falls back on the default
    value, the map of [packages/core] gives every issue its own message (or
    ["Invalid value"]): no code, path or custom parameter changes that. *)
Theorem core_empty_catalogue_keeps_message
    {H : Host} {L : Libraries}
    (option : option ZodI18nMapOption) (issue : Issue) :
  falls_back (the_t (resolve option)) ->
  Core.makeZodI18nMap option issue
  = {| result_message := or_else (message issue) "Invalid value" |}.
Proof.
  intros Hfb.
  destruct (in_dec string_dec (code issue) rendered_codes) as [Hin | Hn].
  - destruct (core_rendering option issue Hin)
      as (key & params & -> & _ & Hdv & _).
    f_equal. now apply Hfb.
  - now apply core_no_case.
Qed.

Lemma core_empty_catalogue_keeps_message_witness :
  Core.makeZodI18nMap None Sample.nested_refinement
  = {| result_message := "Invalid value" |}.
Proof.
  exact (core_empty_catalogue_keeps_message
           None Sample.nested_refinement sample_t_falls_back).
Defined.





(** An issue with a code neither map has a case for keeps its fallback
    message: [issue.message] (or ["Invalid value"]) in [packages/core], the
    locale's message in the other map. *)
Theorem unknown_code_passes_message_through
    {H : Host} {L : Libraries}
    (option : option ZodI18nMapOption) (issue : Issue) :
  ~ In (code issue) rendered_codes ->
  Core.makeZodI18nMap option issue
  = {| result_message := or_else (message issue) "Invalid value" |}
  /\ Rich.makeZodI18nMap option issue
     = Return {| result_message := Rich.fallback_message issue |}.
Proof.
  intros Hn. split; [now apply core_no_case | now apply rich_no_case].
Qed.

Lemma unknown_code_has_no_case : ~ In (code unknown_code) rendered_codes.
Proof.
  unfold rendered_codes; simpl.
  intros [Hx | [Hx | [Hx | [Hx | [Hx | [Hx | [Hx | [Hx | [Hx | []]]]]]]]]];
    discriminate Hx.
Qed.

Lemma unknown_code_passes_message_through_witness :
  Core.makeZodI18nMap None unknown_code
  = {| result_message := "Invalid value" |}
  /\ Rich.makeZodI18nMap None unknown_code
     = Return {| result_message := "Invalid input" |}.
Proof.
  exact (unknown_code_passes_message_through
           None unknown_code unknown_code_has_no_case).
Defined.


End RenderSpec.

(* ------------------------------------------------------------------------- *)
(** ** The other cases of the [switch] *)
(* ------------------------------------------------------------------------- *)

Module CasesMore.
Import Js Zod ObjFacts MapSpec MoreSamples.

#[local] Existing Instance Sample.host.
#[local] Existing Instance Sample.libraries.

(** For an [unrecognized_keys] issue both maps render
    [errors.unrecognized_keys] with the same parameters: [keys] is the list
    of the key names, each in single quotes, joined by a comma and a space,
    and [count] is the number of keys. *)
Theorem unrecognized_keys_quoted_and_counted
    {H : Host} {L : Libraries}
    (option : option ZodI18nMapOption) (issue : Issue) :
  code issue = "unrecognized_keys" ->
  let r := resolve option in
  let params (message : string) :=
    [ ("keys",
       VStr (join ", " (map (fun k => "'" ++ k ++ "'") (keys issue))));
      ("count", VNum (number_of_Z (Z.of_nat (List.length (keys issue)))));
      ("ns", ns_val (the_ns r));
      ("defaultValue", VStr message) ] in
  Core.makeZodI18nMap option issue
  = {| result_message :=
         the_t r "errors.unrecognized_keys"
           (spread (Core.path_fragment r issue)
              (params (or_else (message issue) "Invalid value"))) |}
  /\ Rich.makeZodI18nMap option issue
     = Return
         {| result_message :=
              the_t r "errors.unrecognized_keys"
                (spread (Rich.path_fragment r issue)
                   (params (Rich.fallback_message issue))) |}.
Proof.
  intros Hc r params. subst params.
  unfold Core.makeZodI18nMap, Rich.makeZodI18nMap. rewrite Hc.
  RenderSpec.decide_code_tests. fold r.
  rewrite JoinSpec.joinValues_core_rich,
          JoinSpec.joinValues_strings.
  split; reflexivity.
Qed.

Lemma unrecognized_keys_quoted_and_counted_witness :
  Rich.makeZodI18nMap (Sample.with_t (Sample.show_param "keys")) extra_keys
  = Return {| result_message := "'a', 'b'" |}.
Proof.
  exact (proj2 (unrecognized_keys_quoted_and_counted
                  (Sample.with_t (Sample.show_param "keys")) extra_keys
                  eq_refl)).
Defined.

(** For an [invalid_union] issue of a discriminated union whose options
    each have a literal under the discriminator, the map over zod's locale
    renders [errors.invalid_union_discriminator] with [options] the first
    value of each literal, strings quoted, joined by [" | "]; the map of
    [packages/core] renders [errors.invalid_union] for every
    [invalid_union] issue. *)
Theorem discriminated_union_lists_literals
    {H : Host} {L : Libraries}
    (option : option ZodI18nMapOption) (issue : Issue)
    (options : list Shape) (literals : list JsVal) :
  code issue = "invalid_union" ->
  inst issue = ZodDiscriminatedUnion options ->
  Forall2 (first_literal (discriminator issue)) options literals ->
  let r := resolve option in
  Rich.makeZodI18nMap option issue
  = Return
      {| result_message :=
           the_t r "errors.invalid_union_discriminator"
             (spread (Rich.path_fragment r issue)
                [ ("options", VStr (join " | " (map shown literals)));
                  ("ns", ns_val (the_ns r));
                  ("defaultValue", VStr (Rich.fallback_message issue)) ]) |}
  /\ Core.makeZodI18nMap option issue
     = {| result_message :=
            the_t r "errors.invalid_union"
              (spread (Core.path_fragment r issue)
                 [ ("ns", ns_val (the_ns r));
                   ("defaultValue",
                    VStr (or_else (message issue) "Invalid value")) ]) |}.
Proof.
  intros Hc Hi Hf r.
  apply RenderSpec.map_options_returns_iff in Hf.
  unfold Core.makeZodI18nMap, Rich.makeZodI18nMap. rewrite Hc, Hi, Hf.
  RenderSpec.decide_code_tests. fold r.
  rewrite JoinSpec.joinValues_map_shown.
  split; reflexivity.
Qed.

Lemma discriminated_union_lists_literals_witness :
  Rich.makeZodI18nMap (Sample.with_t (Sample.show_param "options"))
    tagged_union
  = Return {| result_message := "'a' | 'b'" |}.
Proof.
  refine (proj1 (discriminated_union_lists_literals
                   (Sample.with_t (Sample.show_param "options")) tagged_union
                   [ [("type", Some [VStr "a"])]; [("type", Some [VStr "b"])] ]
                   [VStr "a"; VStr "b"] eq_refl eq_refl _)).
  repeat constructor; eexists; split; reflexivity.
Defined.

(** For a [too_big] issue both maps render
    [errors.too_big.{origin}.{exact|inclusive|not_inclusive}], [exact]
    first; [maximum] is the issue's maximum, made a [Date] when the origin
    is ["date"]; [count] is that maximum when it is a number and
    [undefined] otherwise. *)
Theorem too_big_key_maximum_and_count
    {H : Host} {L : Libraries}
    (option : option ZodI18nMapOption) (issue : Issue) :
  code issue = "too_big" ->
  let r := resolve option in
  let kind :=
    if flag (exact issue) then "exact"
    else if flag (inclusive issue) then "inclusive"
    else "not_inclusive" in
  let key := "errors.too_big." ++ origin issue ++ "." ++ kind in
  let maximum :=
    if origin issue =? "date" then new_Date (Number (Zod.maximum issue))
    else numeric_val (Zod.maximum issue) in
  let count := if typeof maximum =? "number" then maximum else VUndefined in
  let params (message : string) :=
    [ ("maximum", maximum); ("count", count);
      ("ns", ns_val (the_ns r)); ("defaultValue", VStr message) ] in
  Core.makeZodI18nMap option issue
  = {| result_message :=
         the_t r key
           (spread (Core.path_fragment r issue)
              (params (or_else (message issue) "Invalid value"))) |}
  /\ Rich.makeZodI18nMap option issue
     = Return
         {| result_message :=
              the_t r key
                (spread (Rich.path_fragment r issue)
                   (params (Rich.fallback_message issue))) |}
  /\ (count <> VUndefined <-> typeof maximum = "number")
  /\ (origin issue = "date" -> count = VUndefined).
Proof.
  intros Hc r kind key maximum count params.
  split; [| split; [| split]].
  - unfold Core.makeZodI18nMap. rewrite Hc. reflexivity.
  - unfold Rich.makeZodI18nMap. rewrite Hc. reflexivity.
  - apply BoundSpec.count_defined_iff_number.
    subst maximum. destruct (origin issue =? "date"); [discriminate |].
    destruct (Zod.maximum issue); discriminate.
  - intros Ho. subst count maximum. now rewrite Ho.
Qed.

Lemma too_big_key_maximum_and_count_witness :
  Rich.makeZodI18nMap (Sample.with_t Sample.show_key) long_string
  = Return {| result_message := "errors.too_big.string.inclusive" |}.
Proof.
  exact (proj1 (proj2 (too_big_key_maximum_and_count
                         (Sample.with_t Sample.show_key) long_string
                         eq_refl))).
Defined.

(** The map over zod's locale picks the key of an [invalid_type] issue from
    the input alone, in this order: [undefined], [null], [Infinity], an
    invalid [Date]; any other input gives [errors.invalid_type] with the
    translated expected type and the translated, lower-cased class of the
    input.  [-Infinity] is such an other input: it is reported as a
    [float], not as [errors.not_finite]. *)
Theorem rich_invalid_type_by_input
    {H : Host} {L : Libraries}
    (option : option ZodI18nMapOption) (issue : Issue) :
  code issue = "invalid_type" ->
  let r := resolve option in
  let t := the_t r in
  let ns := ns_val (the_ns r) in
  let rest := [ ("ns", ns);
                ("defaultValue", VStr (Rich.fallback_message issue)) ] in
  let rendered (key : string) (params : Obj) :=
    Rich.makeZodI18nMap option issue
    = Return {| result_message :=
                  t key (spread (Rich.path_fragment r issue) params) |} in
  (input issue = VUndefined ->
   rendered "errors.invalid_type_received_undefined" rest)
  /\ (input issue = VNull ->
      rendered "errors.invalid_type_received_null" rest)
  /\ (input issue = VNum Infinity -> rendered "errors.not_finite" rest)
  /\ (forall tv, input issue = VDate tv -> Number_isNaN tv = true ->
                 rendered "errors.invalid_date" rest)
  /\ (is_undefined (input issue) = false ->
      is_null (input issue) = false ->
      is_Infinity (input issue) = false ->
      Rich.is_invalid_date (input issue) = false ->
      let received :=
        toLocaleLowerCase (Rich.getReceivedDataType (input issue)) in
      rendered "errors.invalid_type"
        (("expected",
          VStr (t ("types." ++ to_string (expected issue))
                  [ ("defaultValue", expected issue); ("ns", ns) ]))
         :: ("received",
             VStr (t ("types." ++ received)
                     [ ("defaultValue", VStr received); ("ns", ns) ]))
         :: rest))
  /\ Rich.getReceivedDataType (VNum (S754_infinity true)) = "float".
Proof.
  intros Hc r t ns rest rendered. subst rendered.
  unfold Rich.makeZodI18nMap. rewrite Hc.
  RenderSpec.decide_code_tests.
  repeat split.
  - intros ->. reflexivity.
  - intros ->. reflexivity.
  - intros ->. reflexivity.
  - intros tv -> Hn. simpl. now rewrite Hn.
  - intros -> -> -> ->. reflexivity.
Qed.

Lemma rich_invalid_type_by_input_witness :
  Rich.makeZodI18nMap (Sample.with_t show_received)
    (type_issue (VNum (S754_infinity true)))
  = Return {| result_message := "types.float" |}.
Proof.
  exact (proj1 (proj2 (proj2 (proj2 (proj2
           (rich_invalid_type_by_input
              (Sample.with_t show_received)
              (type_issue (VNum (S754_infinity true))) eq_refl)))))
           eq_refl eq_refl eq_refl eq_refl).
Defined.

(** On the codes whose case reads the same in both files, the two maps
    give the same message for an issue that has no empty path, as soon as
    their fallback messages are the same. *)
Theorem maps_agree_on_shared_cases
    {H : Host} {L : Libraries}
    (option : option ZodI18nMapOption) (issue : Issue) :
  In (code issue) shared_codes ->
  path issue <> Some [] ->
  Rich.fallback_message issue = or_else (message issue) "Invalid value" ->
  Rich.makeZodI18nMap option issue
  = Return (Core.makeZodI18nMap option issue).
Proof.
  intros Hin Hp Hm.
  assert (Hf : Core.path_fragment (resolve option) issue
               = Rich.path_fragment (resolve option) issue).
  { unfold Core.path_fragment, Rich.path_fragment.
    destruct (path issue) as [[| seg segs] |]; try reflexivity.
    now elim Hp. }
  unfold shared_codes in Hin. simpl in Hin.
  unfold Core.makeZodI18nMap, Rich.makeZodI18nMap.
  rewrite Hf, Hm, <- !JoinSpec.joinValues_core_rich.
  repeat (destruct Hin as [Hc | Hin]; [symmetry in Hc; rewrite Hc |]);
    try contradiction; reflexivity.
Qed.

Lemma maps_agree_on_shared_cases_witness :
  Rich.makeZodI18nMap (H := Sample.host) (H0 := plain_libraries)
    None odd_number
  = Return (Core.makeZodI18nMap (H := Sample.host) (H0 := plain_libraries)
              None odd_number).
Proof.
  apply (maps_agree_on_shared_cases (L := plain_libraries) None odd_number).
  - unfold shared_codes; simpl; tauto.
  - discriminate.
  - reflexivity.
Defined.

(** The lemmas above on the map over zod's locale, at concrete issues. *)
Lemma rich_path_fragment_spec_witness :
  Rich.path_fragment (resolve None) Sample.nested_refinement
  = [ ("context", VStr "with_path"); ("path", VStr "user.email") ].
Proof.
  refine (proj1 (VariantSpec.rich_path_fragment_spec
                   (resolve None) Sample.nested_refinement)
                {| r_context := "with_path";
                   r_ns := NsName "zod";
                   r_keyPrefix := None |}
                [PKString "user"; PKString "email"] eq_refl eq_refl _).
  discriminate.
Defined.

Lemma rich_starts_with_ends_with_witness :
  Rich.makeZodI18nMap (Sample.with_t (Sample.show_param "startsWith"))
    Sample.bad_prefix
  = Return {| result_message := "abc" |}.
Proof.
  exact (proj1 (VariantSpec.rich_starts_with_ends_with
                  (Sample.with_t (Sample.show_param "startsWith"))
                  Sample.bad_prefix eq_refl) eq_refl).
Defined.

Lemma rich_invalid_value_literal_enum_witness :
  Rich.makeZodI18nMap (Sample.with_t (Sample.show_param "options"))
    Sample.bad_enum
  = Return {| result_message := "'a' | 'b'" |}.
Proof.
  exact (proj2 (VariantSpec.rich_invalid_value_literal_enum
                  (Sample.with_t (Sample.show_param "options"))
                  Sample.bad_enum eq_refl) eq_refl).
Defined.

End CasesMore.
